(** * ExpenseTracker: the request handlers of [main.py] over one table

    The application is a FastAPI program with a single SQLAlchemy model,
    [Expense], and eleven routes.  The handlers are embedded as functions
    in a small state-and-exception monad over the session's table; the
    ORM calls they make ([query(...).all()], [query(func.sum(...)).scalar()],
    [filter(...).first()], [add]/[commit]/[refresh], [delete]/[commit]) are
    the primitives of that monad, with the behaviour of SQLite, the engine
    of the default [database_url]:
    - a primary key is a signed 64-bit integer; an id outside that range
      cannot be bound to a statement, which raises;
    - a new row gets the largest key plus one, or a key drawn at random
      when the largest key is the largest integer, and rows are kept in
      the order of their keys;
    - a float written to the [Float] column may come back changed (NaN is
      kept as NULL, the negative zero as [0.0]);
    - [SUM] is NULL when its floating-point total is NaN.

    The handlers take the values that FastAPI and Pydantic have parsed
    and hand back the value that the framework renders; parsing and
    rendering are not part of this development.  Of the parsed values,
    the form routes refuse one, the empty description, which the
    dispatcher [app] refuses as well.  JSON carries finite numbers only,
    so what is stated of a JSON answer with an amount is stated for
    finite amounts.

    The arithmetic of floats, the conversion of a written float, the
    random draw and the clock are parameters.  Modules [IEEE] and [SQLite]
    set the first two to IEEE 754 doubles and to SQLite's conversion. *)

From Stdlib Require Import ZArith List String Bool Lia Floats.
Import ListNotations.
Local Open Scope string_scope.
Local Open Scope list_scope.
Local Open Scope Z_scope.

(** ** [datetime.date] *)

Module datetime.
Record date : Type := mkdate { year : Z; month : Z; day : Z }.
End datetime.

(** ** Outcome of a handler: a value, or a raised exception that the
    framework turns into a response with the given status code. *)

Inductive outcome (A : Type) : Type :=
| Returns (a : A)
| Raises (status_code : Z) (detail : string).

Arguments Returns {A} a.
Arguments Raises {A} status_code detail.

(** ** Primary keys: signed 64-bit integers *)

(** The largest key, 2^63 - 1. *)
Definition top_rowid : Z := 9223372036854775807.

Definition int64 (z : Z) : bool := (- top_rowid - 1 <=? z) && (z <=? top_rowid).

Definition is_true_dec (b : bool) : {b = true} + {b <> true} :=
  match b with
  | true => left eq_refl
  | false => right diff_false_true
  end.

(** ** Python's [float]: IEEE 754 doubles *)

Module IEEE.

(** [bool(x)] for a float: false when [x == 0.0], which holds of both
    zeros; true of every other float, NaN included. *)
Definition truth (x : PrimFloat.float) : bool := negb (x =? 0)%float.

(** [math.isnan(x)]: NaN is the float that differs from itself. *)
Definition isnan (x : PrimFloat.float) : bool := negb (x =? x)%float.

(** [math.isfinite(x)]: neither NaN nor an infinity. *)
Definition isfinite (x : PrimFloat.float) : bool :=
  negb (isnan x) && negb (abs x =? infinity)%float.

End IEEE.

(** ** What SQLite keeps of a float written to a [Float] column *)

Module SQLite.

(** NaN is kept as NULL; a zero of either sign is kept as [0.0]; every
    other double, the infinities included, is kept as it is. *)
Definition stored (x : PrimFloat.float) : option PrimFloat.float :=
  if IEEE.isnan x then None
  else if (x =? 0)%float then Some 0%float
  else Some x.

End SQLite.

Section ExpenseTracker.

(** *** Parameters: the [Float] column and Python's [float] *)

Context {float : Type}.
Variable zero : float.                      (* 0.0 *)
Variable fadd : float -> float -> float.    (* the engine's addition *)
Variable truth : float -> bool.             (* bool(x) *)
Variable isnan : float -> bool.             (* x is NaN *)
Variable isfinite : float -> bool.          (* x is a finite number *)

(** What the column holds once a float is written to it; [None] is NULL. *)
Variable stored : float -> option float.

(** The key the engine's random search ends with, when it has to draw
    one; the argument counts the statements the session has issued, so
    that two draws may differ. *)
Variable random_rowid : nat -> Z.

(** *** The models *)

(** [class Expense(Base)]: [id] is the primary key, a 64-bit integer; the
    other three columns are declared without [nullable=False], so a row
    may hold NULL there. *)
Record Expense : Type := mkExpense {
  id : Z;
  description : option string;
  amount : option float;
  date : option datetime.date;
  id_int64 : int64 id = true
}.

(** A row under the key [pk], when [pk] is a 64-bit integer. *)
Definition row (pk : Z) (d : option string) (a : option float)
           (t : option datetime.date) : option Expense :=
  match is_true_dec (int64 pk) with
  | left H => Some (mkExpense pk d a t H)
  | right _ => None
  end.

(** [class ExpenseCreate(BaseModel)]: three required fields. *)
Record ExpenseCreate : Type := mkExpenseCreate {
  new_description : string;
  new_amount : float;
  new_date : datetime.date
}.

(** [class ExpenseUpdate(ExpenseCreate): pass] *)
Definition ExpenseUpdate : Type := ExpenseCreate.

(** [class ExpenseRead(ExpenseCreate)]: adds [id: int]. *)
Record ExpenseRead : Type := mkExpenseRead {
  read_id : Z;
  read_description : string;
  read_amount : float;
  read_date : datetime.date
}.

(** [ExpenseRead.model_validate(db_expense)] with [from_attributes]:
    copies the four attributes; a [None] attribute fails validation. *)
Definition model_validate (e : Expense) : option ExpenseRead :=
  match description e, amount e, date e with
  | Some d, Some a, Some t => Some (mkExpenseRead (id e) d a t)
  | _, _, _ => None
  end.

(** *** The session *)

(** What a handler asked of the session, in order. *)
Inductive statement : Type :=
| SELECT_all
| SELECT_sum
| SELECT_sum_where (m y : Z)
| SELECT_first (pk : Z)
| INSERT
| REFRESH (pk : Z)
| UPDATE (pk : Z)
| DELETE (pk : Z).

Record Session : Type := mkSession {
  table : list Expense;        (* the rows, in storage order *)
  issued : list statement      (* the statements issued so far *)
}.

Definition handler (A : Type) : Type := Session -> outcome A * Session.

Definition ret {A} (a : A) : handler A := fun db => (Returns a, db).

Definition raise {A} (status_code : Z) (detail : string) : handler A :=
  fun db => (Raises status_code detail, db).

Definition bind {A B} (m : handler A) (k : A -> handler B) : handler B :=
  fun db =>
    match m db with
    | (Returns a, db') => k a db'
    | (Raises c d, db') => (Raises c d, db')
    end.

Notation "x <- m ;; k" := (bind m (fun x => k))
  (at level 61, m at next level, right associativity).
Notation "m ;;; k" := (bind m (fun _ => k))
  (at level 61, right associativity).

Definition issue (q : statement) : handler unit :=
  fun db => (Returns tt, mkSession (table db) (issued db ++ [q])).

Definition rows : handler (list Expense) :=
  fun db => (Returns (table db), db).

Definition store (t : list Expense) : handler unit :=
  fun db => (Returns tt, mkSession t (issued db)).

(** How many statements the session has issued. *)
Definition issued_so_far : handler nat :=
  fun db => (Returns (List.length (issued db)), db).

(** **** Queries *)

Definition has_id (pk : Z) (e : Expense) : bool := id e =? pk.

(** [db.query(Expense).all()] *)
Definition query_all : handler (list Expense) :=
  issue SELECT_all ;;; rows.

(** [db.query(Expense).filter(Expense.id == expense_id).first()].  The
    id is bound to the statement first: a Python integer outside the
    64-bit range raises [OverflowError], an uncaught exception. *)
Definition query_first (expense_id : Z) : handler (option Expense) :=
  if int64 expense_id then
    issue (SELECT_first expense_id) ;;;
    t <- rows ;;
    ret (find (has_id expense_id) t)
  else raise 500 "Internal Server Error".

(** The non-NULL values of a column. *)
Fixpoint non_null {A} (xs : list (option A)) : list A :=
  match xs with
  | [] => []
  | Some x :: r => x :: non_null r
  | None :: r => non_null r
  end.

(** The total of a list of floats, added up in order from [0.0]. *)
Definition total_of (xs : list float) : float := fold_left fadd xs zero.

(** [x or 0.0] replaces a falsy [x] by [0.0].  A total that is falsy is
    [0.0]: exact arithmetic has one zero, and a running total of IEEE
    doubles that starts at [+0.0] is never [-0.0] (lemma
    [ieee_falsy_total] below). *)
Hypothesis falsy_total :
  forall xs, truth (total_of xs) = false -> total_of xs = zero.

(** [func.sum]: NULL when there is no non-NULL value and when the total
    of the values is NaN, their total otherwise. *)
Definition func_sum (xs : list (option float)) : option float :=
  match non_null xs with
  | [] => None
  | vs => if isnan (total_of vs) then None else Some (total_of vs)
  end.

(** [db.query(func.sum(Expense.amount)).scalar()] *)
Definition query_sum : handler (option float) :=
  issue SELECT_sum ;;;
  t <- rows ;;
  ret (func_sum (map amount t)).

(** [extract('month', Expense.date)] and [extract('year', ...)]: NULL on
    a NULL date. *)
Definition extract_month (d : option datetime.date) : option Z :=
  option_map datetime.month d.
Definition extract_year (d : option datetime.date) : option Z :=
  option_map datetime.year d.

(** [column == value] in a WHERE clause: a NULL is not a match. *)
Definition sql_eq (c : option Z) (v : Z) : bool :=
  match c with
  | Some x => x =? v
  | None => false
  end.

(** [db.query(func.sum(Expense.amount)).filter(extract('month', ...) ==
    current_month, extract('year', ...) == current_year).scalar()] *)
Definition query_sum_where (current_month current_year : Z)
  : handler (option float) :=
  issue (SELECT_sum_where current_month current_year) ;;;
  t <- rows ;;
  ret (func_sum (map amount
         (filter (fun e => sql_eq (extract_month (date e)) current_month
                           && sql_eq (extract_year (date e)) current_year)
                 t))).

(** **** Writes *)

(** The largest primary key in the table. *)
Fixpoint max_rowid (t : list Expense) : option Z :=
  match t with
  | [] => None
  | e :: r =>
      match max_rowid r with
      | None => Some (id e)
      | Some m => Some (Z.max (id e) m)
      end
  end.

(** The key SQLite gives to a row inserted without one: 1 in an empty
    table; one more than the largest key while that is below the largest
    integer; otherwise a positive key drawn at random, [draw], and no key
    at all (the insert fails) when the draw ends on a key in use. *)
Definition new_rowid (draw : Z) (t : list Expense) : option Z :=
  match max_rowid t with
  | None => Some 1
  | Some m =>
      if m <? top_rowid then Some (m + 1)
      else if (0 <? draw) && (draw <=? top_rowid)
              && negb (existsb (has_id draw) t)
           then Some draw
           else None
  end.

(** The table with one more row, at its place in the order of keys:
    before the first row with a larger key. *)
Fixpoint place (e : Expense) (t : list Expense) : list Expense :=
  match t with
  | [] => [e]
  | x :: r => if id e <? id x then e :: t else x :: place e r
  end.

(** [db.add(db_expense); db.commit()] for a new
    [Expense(description=..., amount=..., date=...)]: the row is inserted
    under a key chosen by the storage, which the object then carries; the
    commit raises when the storage finds no key. *)
Definition add_commit (d : string) (a : float) (t : datetime.date)
  : handler Z :=
  n <- issued_so_far ;;
  issue INSERT ;;;
  old <- rows ;;
  match new_rowid (random_rowid n) old with
  | None => raise 500 "Internal Server Error"
  | Some pk =>
      match row pk (Some d) (stored a) (Some t) with
      | None => raise 500 "Internal Server Error"
      | Some e => store (place e old) ;;; ret pk
      end
  end.

(** [db.refresh(db_expense)]: the object is read again by primary key;
    an exception (a 500 response) if the row is gone. *)
Definition refresh (pk : Z) : handler Expense :=
  issue (REFRESH pk) ;;;
  t <- rows ;;
  match find (has_id pk) t with
  | Some e => ret e
  | None => raise 500 "Internal Server Error"
  end.

Definition assign (pk : Z) (d : string) (a : float) (t : datetime.date)
           (e : Expense) : Expense :=
  if has_id pk e
  then mkExpense (id e) (Some d) (stored a) (Some t) (id_int64 e)
  else e.

(** [db_expense.description = ...; db_expense.amount = ...;
    db_expense.date = ...; db.commit()]: the row with the object's key
    gets the three values, the amount as the column keeps it. *)
Definition set_commit (pk : Z) (d : string) (a : float) (t : datetime.date)
  : handler unit :=
  issue (UPDATE pk) ;;;
  old <- rows ;;
  store (map (assign pk d a t) old).

(** [db.delete(db_expense); db.commit()]: the row with the object's key
    is removed. *)
Definition delete_commit (pk : Z) : handler unit :=
  issue (DELETE pk) ;;;
  old <- rows ;;
  store (filter (fun e => negb (has_id pk e)) old).

(** *** Responses *)

(** The mapping of named values handed to a template. *)
Inductive context : Type :=
| no_values
| index_values (expenses : list Expense) (total : float)
| update_values (expense : Expense).

Inductive response : Type :=
| TemplateResponse (name : string) (values : context)
| RedirectResponse (url : string) (status_code : Z)
| ExpenseRead_json (e : ExpenseRead)
| ExpenseRead_list_json (l : list ExpenseRead)
| float_json (x : float)
| detail_json (detail : string).

(** [x or 0.0] *)
Definition or_zero (x : option float) : float :=
  match x with
  | None => zero
  | Some v => if truth v then v else zero
  end.

(** [[ExpenseRead.model_validate(expense) for expense in expenses]] *)
Fixpoint validate_all (l : list Expense) : option (list ExpenseRead) :=
  match l with
  | [] => Some []
  | e :: r =>
      match model_validate e, validate_all r with
      | Some x, Some xs => Some (x :: xs)
      | _, _ => None
      end
  end.

(** A failed [model_validate] is an uncaught exception: a 500. *)
Definition validated {A} (x : option A) : handler A :=
  match x with
  | Some a => ret a
  | None => raise 500 "Internal Server Error"
  end.

(** *** Web routes *)

(** [GET /] *)
Definition read_root : handler response :=
  expenses <- query_all ;;
  total <- query_sum ;;
  ret (TemplateResponse "index.html" (index_values expenses (or_zero total))).

(** [GET /add] *)
Definition add_expense_form : handler response :=
  ret (TemplateResponse "add_expense.html" no_values).

(** [POST /add] *)
Definition add_expense (d : string) (a : float) (t : datetime.date)
  : handler response :=
  pk <- add_commit d a t ;;
  _ <- refresh pk ;;
  ret (RedirectResponse "/" 303).

(** [GET /update/{expense_id}] *)
Definition update_expense_form (expense_id : Z) : handler response :=
  expense <- query_first expense_id ;;
  match expense with
  | None => raise 404 "Expense not found"
  | Some e => ret (TemplateResponse "update_expense.html" (update_values e))
  end.

(** [POST /update/{expense_id}] *)
Definition update_expense (expense_id : Z)
           (d : string) (a : float) (t : datetime.date)
  : handler response :=
  db_expense <- query_first expense_id ;;
  match db_expense with
  | None => raise 404 "Expense not found"
  | Some e =>
      set_commit (id e) d a t ;;;
      _ <- refresh (id e) ;;
      ret (RedirectResponse "/" 303)
  end.

(** [POST /delete/{expense_id}] *)
Definition delete_expense (expense_id : Z) : handler response :=
  db_expense <- query_first expense_id ;;
  match db_expense with
  | None => raise 404 "Expense not found"
  | Some e =>
      delete_commit (id e) ;;;
      ret (RedirectResponse "/" 303)
  end.

(** *** API routes *)

(** [POST /api/expenses/] *)
Definition create_expense_api (expense : ExpenseCreate) : handler response :=
  pk <- add_commit (new_description expense) (new_amount expense)
                   (new_date expense) ;;
  db_expense <- refresh pk ;;
  r <- validated (model_validate db_expense) ;;
  ret (ExpenseRead_json r).

(** [GET /api/expenses/] *)
Definition read_expenses_api : handler response :=
  expenses <- query_all ;;
  l <- validated (validate_all expenses) ;;
  ret (ExpenseRead_list_json l).

(** [GET /api/expenses/total].  [date.today()] is called twice, once for
    the month and once for the year; [today n] is what call number [n]
    answers. *)
Definition total_expenses_api (today : nat -> datetime.date)
  : handler response :=
  let current_month := datetime.month (today 0%nat) in
  let current_year := datetime.year (today 1%nat) in
  total <- query_sum_where current_month current_year ;;
  ret (float_json (or_zero total)).

(** [PUT /api/expenses/{expense_id}] *)
Definition update_expense_api (expense_id : Z) (expense : ExpenseUpdate)
  : handler response :=
  db_expense <- query_first expense_id ;;
  match db_expense with
  | None => raise 404 "Expense not found"
  | Some e =>
      set_commit (id e) (new_description expense) (new_amount expense)
                 (new_date expense) ;;;
      e' <- refresh (id e) ;;
      r <- validated (model_validate e') ;;
      ret (ExpenseRead_json r)
  end.

(** [DELETE /api/expenses/{expense_id}] *)
Definition delete_expense_api (expense_id : Z) : handler response :=
  db_expense <- query_first expense_id ;;
  match db_expense with
  | None => raise 404 "Expense not found"
  | Some e =>
      delete_commit (id e) ;;;
      ret (detail_json "Expense deleted")
  end.

(** *** The routes *)

(** A request as FastAPI has parsed it: the route, the path parameter and
    the form fields or the body. *)
Inductive request : Type :=
| GET_root
| GET_add
| POST_add (description : string) (amount : float) (date : datetime.date)
| GET_update (expense_id : Z)
| POST_update (expense_id : Z)
              (description : string) (amount : float) (date : datetime.date)
| POST_delete (expense_id : Z)
| POST_api_expenses (expense : ExpenseCreate)
| GET_api_expenses
| GET_api_expenses_total
| PUT_api_expenses (expense_id : Z) (expense : ExpenseUpdate)
| DELETE_api_expenses (expense_id : Z).

(** [description: str = Form(...)]: FastAPI takes an empty form field for
    a missing one and answers 422 without calling the handler; every
    other text reaches the handler.  A JSON body may carry an empty
    description. *)
Definition form_text (d : string) (h : handler response) : handler response :=
  match d with
  | EmptyString => raise 422 "Unprocessable Entity"
  | String _ _ => h
  end.

Definition app (today : nat -> datetime.date) (r : request)
  : handler response :=
  match r with
  | GET_root => read_root
  | GET_add => add_expense_form
  | POST_add d a t => form_text d (add_expense d a t)
  | GET_update i => update_expense_form i
  | POST_update i d a t => form_text d (update_expense i d a t)
  | POST_delete i => delete_expense i
  | POST_api_expenses e => create_expense_api e
  | GET_api_expenses => read_expenses_api
  | GET_api_expenses_total => total_expenses_api today
  | PUT_api_expenses i e => update_expense_api i e
  | DELETE_api_expenses i => delete_expense_api i
  end.

(** A session on the table as [create_all] leaves a new database. *)
Definition new_database : Session := mkSession [] [].

(** The requests of a list served one after the other, each with its own
    clock. *)
Fixpoint serve (reqs : list ((nat -> datetime.date) * request))
         (db : Session) : Session :=
  match reqs with
  | [] => db
  | (today, r) :: rest => serve rest (snd (app today r db))
  end.

(** *** Vocabulary of the properties *)

Definition ids (t : list Expense) : list Z := map id t.

(** All three fields of a row are populated. *)
Definition populated (e : Expense) : bool :=
  match description e, amount e, date e with
  | Some _, Some _, Some _ => true
  | _, _, _ => false
  end.

(** The row has its description and its date. *)
Definition labelled (e : Expense) : bool :=
  match description e, date e with
  | Some _, Some _ => true
  | _, _ => false
  end.

(** The row is dated in the calendar month and year of [d]. *)
Definition same_month (d : datetime.date) (e : Expense) : bool :=
  match date e with
  | Some x =>
      (datetime.month x =? datetime.month d)
      && (datetime.year x =? datetime.year d)
  | None => false
  end.

(** The ids a response lists: the records of the JSON list, or the rows
    handed to the index page. *)
Definition listed (o : outcome response) : list Z :=
  match o with
  | Returns (ExpenseRead_list_json l) => map read_id l
  | Returns (TemplateResponse _ (index_values l _)) => ids l
  | _ => []
  end.

(** The key the storage gives to a row inserted in this session now;
    [None] when it finds no key. *)
Definition assigned (db : Session) : option Z :=
  new_rowid (random_rowid (List.length (issued db))) (table db).

(** The largest key of the table is below the largest integer, so that
    the next key is the largest key plus one. *)
Definition below_top (t : list Expense) : bool :=
  match max_rowid t with
  | None => true
  | Some m => m <? top_rowid
  end.

(** A total as a response shows it: [0.0] in place of NaN. *)
Definition number_or_zero (x : float) : float :=
  if isnan x then zero else x.

(** Creates and deletes, and the amounts a client knows to be live from
    its requests and the answers: a create that is answered with a record
    adds the amount it sent, as the column keeps it, under the id of the
    record; a delete that is answered with success drops that id. *)
Inductive op : Type :=
| create (expense : ExpenseCreate)
| delete (expense_id : Z)
| delete_web (expense_id : Z).

Definition ledger : Type := list (Z * float).

Definition forget (pk : Z) (l : ledger) : ledger :=
  filter (fun p => negb (fst p =? pk)) l.

Definition succeeded {A} (o : outcome A) : bool :=
  match o with
  | Returns _ => true
  | Raises _ _ => false
  end.

Fixpoint play (ops : list op) (db : Session) (l : ledger)
  : Session * ledger :=
  match ops with
  | [] => (db, l)
  | create e :: rest =>
      let (o, db') := create_expense_api e db in
      play rest db'
           match o, stored (new_amount e) with
           | Returns (ExpenseRead_json r), Some s => l ++ [(read_id r, s)]
           | _, _ => l
           end
  | delete i :: rest =>
      let (o, db') := delete_expense_api i db in
      play rest db' (if succeeded o then forget i l else l)
  | delete_web i :: rest =>
      let (o, db') := delete_expense i db in
      play rest db' (if succeeded o then forget i l else l)
  end.

(** The ids and amounts of the rows that have an amount, in storage
    order. *)
Fixpoint priced (t : list Expense) : ledger :=
  match t with
  | [] => []
  | e :: r =>
      match amount e with
      | Some a => (id e, a) :: priced r
      | None => priced r
      end
  end.

(** The stored table is well formed: no two rows share an id, and every
    row has its three fields populated. *)
Definition well_formed (t : list Expense) : Prop :=
  NoDup (ids t) /\ Forall (fun e => populated e = true) t.

(** No two rows share an id, and every row has its description and its
    date. *)
Definition keyed (t : list Expense) : Prop :=
  NoDup (ids t) /\ Forall (fun e => labelled e = true) t.

(** The column keeps the amount that the request writes, if it writes
    one. *)
Definition keeps (a : float) : bool :=
  match stored a with
  | Some _ => true
  | None => false
  end.

Definition amount_kept (r : request) : bool :=
  match r with
  | POST_add _ a _ => keeps a
  | POST_update _ _ a _ => keeps a
  | POST_api_expenses e => keeps (new_amount e)
  | PUT_api_expenses _ e => keeps (new_amount e)
  | _ => true
  end.

(** The request has a JSON body whose amount the column keeps and JSON
    carries back, or has no JSON body. *)
Definition amount_sent (r : request) : bool :=
  match r with
  | POST_api_expenses e => keeps (new_amount e) && isfinite (new_amount e)
  | PUT_api_expenses _ e => keeps (new_amount e) && isfinite (new_amount e)
  | _ => true
  end.

(** The record shows the row: the same id and the row's three values. *)
Definition shows (e : Expense) (r : ExpenseRead) : Prop :=
  id e = read_id r
  /\ description e = Some (read_description r)
  /\ amount e = Some (read_amount r)
  /\ date e = Some (read_date r).

(** The total a response carries: the [total] handed to the index page,
    or the bare number of [GET /api/expenses/total]. *)
Definition total_in (o : outcome response) : option float :=
  match o with
  | Returns (TemplateResponse _ (index_values _ total)) => Some total
  | Returns (float_json x) => Some x
  | _ => None
  end.

(** The date [d] lies in the calendar month and year of [current]. *)
Definition dated_in (current d : datetime.date) : bool :=
  (datetime.month d =? datetime.month current)
  && (datetime.year d =? datetime.year current).

(** The outcome is [HTTPException(status_code=404, ...)]. *)
Definition not_found {A} (o : outcome A) : bool :=
  match o with
  | Returns _ => false
  | Raises c _ => c =? 404
  end.

(** The table holds a row under the id. *)
Definition holds (t : list Expense) (pk : Z) : bool := existsb (has_id pk) t.

(** ** Properties *)

(** Unfolds a handler down to the table. *)
Ltac run_handler :=
  unfold read_root, add_expense_form, add_expense, update_expense_form,
    update_expense, delete_expense, create_expense_api, read_expenses_api,
    total_expenses_api, update_expense_api, delete_expense_api,
    query_all, query_sum, query_sum_where, add_commit,
    refresh, set_commit, delete_commit, validated, bind, issue, rows,
    store, issued_so_far, ret, raise; simpl.

(** *** Keys *)

Lemma held_int64 (pk : Z) (t : list Expense) :
  In pk (ids t) -> int64 pk = true.
Proof.
  unfold ids. intros H. apply in_map_iff in H.
  destruct H as [e [He _]]. subst pk. apply id_int64.
Qed.

Lemma out_of_range_absent (pk : Z) (t : list Expense) :
  int64 pk = false -> ~ In pk (ids t).
Proof.
  intros H Hin. apply held_int64 in Hin. congruence.
Qed.

Lemma row_some (pk : Z) d a t :
  int64 pk = true ->
  exists e, row pk d a t = Some e
            /\ id e = pk /\ description e = d /\ amount e = a /\ date e = t.
Proof.
  intros H. unfold row.
  destruct (is_true_dec (int64 pk)) as [E|E]; [|contradiction].
  eexists. split; [reflexivity|]. repeat split.
Qed.

(** *** Looking a row up by primary key *)

Lemma find_absent (pk : Z) (t : list Expense) :
  ~ In pk (ids t) -> find (has_id pk) t = None.
Proof.
  induction t as [|e t IH]; simpl; intros H; [reflexivity|].
  unfold has_id at 1.
  destruct (Z.eqb_spec (id e) pk) as [E|E].
  - exfalso. apply H. now left.
  - apply IH. intros Hin. apply H. now right.
Qed.

Lemma find_present (pk : Z) (t : list Expense) :
  In pk (ids t) -> exists e, find (has_id pk) t = Some e /\ id e = pk.
Proof.
  induction t as [|e t IH]; simpl; intros H; [contradiction|].
  unfold has_id at 1.
  destruct (Z.eqb_spec (id e) pk) as [E|E].
  - exists e. split; [reflexivity|exact E].
  - destruct H as [H|H]; [contradiction|]. now apply IH.
Qed.

Lemma find_has_id (pk : Z) (t : list Expense) (e : Expense) :
  find (has_id pk) t = Some e -> id e = pk /\ In pk (ids t).
Proof.
  intros H. apply find_some in H. destruct H as [Hin Hid].
  unfold has_id in Hid. apply Z.eqb_eq in Hid. split; [exact Hid|].
  subst pk. unfold ids. now apply in_map.
Qed.

Lemma find_none_absent (pk : Z) (t : list Expense) :
  find (has_id pk) t = None -> ~ In pk (ids t).
Proof.
  intros H Hin. apply find_present in Hin.
  destruct Hin as [e [He _]]. congruence.
Qed.

Lemma query_first_in_range (i : Z) (db : Session) :
  int64 i = true ->
  query_first i db
  = (Returns (find (has_id i) (table db)),
     mkSession (table db) (issued db ++ [SELECT_first i])).
Proof. intros H. unfold query_first. rewrite H. reflexivity. Qed.

Lemma query_first_out_of_range (i : Z) (db : Session) :
  int64 i = false ->
  query_first i db = (Raises 500 "Internal Server Error", db).
Proof. intros H. unfold query_first. rewrite H. reflexivity. Qed.

Lemma query_first_held (i : Z) (db : Session) :
  In i (ids (table db)) ->
  exists e,
    query_first i db
    = (Returns (Some e), mkSession (table db) (issued db ++ [SELECT_first i]))
    /\ find (has_id i) (table db) = Some e /\ id e = i.
Proof.
  intros H. destruct (find_present _ _ H) as [e [He Hid]].
  exists e. rewrite query_first_in_range by (eapply held_int64; eassumption).
  rewrite He. repeat split; assumption.
Qed.

(** *** The key of a new row and its place *)

Lemma max_rowid_bounds (t : list Expense) (e : Expense) :
  In e t -> exists m, max_rowid t = Some m /\ id e <= m.
Proof.
  induction t as [|x t IH]; simpl; intros H; [contradiction|].
  destruct H as [H|H].
  - subst x. destruct (max_rowid t) as [m|].
    + exists (Z.max (id e) m). split; [reflexivity|lia].
    + exists (id e). split; [reflexivity|lia].
  - destruct (IH H) as [m [Hm Hle]]. rewrite Hm.
    exists (Z.max (id x) m). split; [reflexivity|lia].
Qed.

Lemma max_rowid_held (t : list Expense) (m : Z) :
  max_rowid t = Some m -> In m (ids t).
Proof.
  revert m. induction t as [|x t IH]; simpl; intros m H; [discriminate|].
  destruct (max_rowid t) as [k|].
  - inversion H; subst m. destruct (Z.max_spec (id x) k) as [[_ E]|[_ E]];
      rewrite E; [right; now apply IH|now left].
  - inversion H. now left.
Qed.

Lemma max_rowid_none (t : list Expense) : max_rowid t = None -> t = [].
Proof.
  destruct t as [|x t]; [reflexivity|]. simpl.
  destruct (max_rowid t); discriminate.
Qed.

(** A key the storage gives is a 64-bit integer above no row's key when
    the table is below the top, and in every case the key of no row. *)
Lemma new_rowid_fresh (draw : Z) (t : list Expense) (pk : Z) :
  new_rowid draw t = Some pk -> int64 pk = true /\ ~ In pk (ids t).
Proof.
  unfold new_rowid. destruct (max_rowid t) as [m|] eqn:Em.
  - destruct (Z.ltb_spec m top_rowid) as [Hlt|Hge].
    + intros H. inversion H; subst pk. split.
      * pose proof (held_int64 _ _ (max_rowid_held _ _ Em)) as Hm.
        unfold int64 in *. apply andb_prop in Hm. destruct Hm as [H1 H2].
        apply Z.leb_le in H1. apply andb_true_intro.
        split; [apply Z.leb_le|apply Z.leb_le]; lia.
      * unfold ids. intros Hin. apply in_map_iff in Hin.
        destruct Hin as [e [He Hin]].
        destruct (max_rowid_bounds _ _ Hin) as [k [Hk Hle]].
        rewrite Em in Hk. inversion Hk; subst k. lia.
    + destruct ((0 <? draw) && (draw <=? top_rowid)
                && negb (existsb (has_id draw) t)) eqn:E; [|discriminate].
      intros H. inversion H; subst pk.
      apply andb_prop in E. destruct E as [E Hun].
      apply andb_prop in E. destruct E as [Hpos Hle].
      apply Z.ltb_lt in Hpos. apply Z.leb_le in Hle. split.
      * unfold int64. apply andb_true_intro.
        split; apply Z.leb_le; unfold top_rowid in *; lia.
      * intros Hin. apply find_present in Hin.
        destruct Hin as [e [He _]]. apply find_some in He.
        apply negb_true_iff in Hun.
        assert (Hex : existsb (has_id draw) t = true).
        { apply existsb_exists. exists e. exact He. }
        congruence.
  - intros H. inversion H; subst pk. split; [reflexivity|].
    apply max_rowid_none in Em. subst t. intros [].
Qed.

Lemma new_rowid_below_top (draw : Z) (t : list Expense) :
  below_top t = true ->
  exists pk, new_rowid draw t = Some pk
             /\ forall e, In e t -> id e < pk.
Proof.
  unfold below_top, new_rowid. destruct (max_rowid t) as [m|] eqn:Em.
  - intros H. rewrite H. exists (m + 1). split; [reflexivity|].
    intros e He. destruct (max_rowid_bounds _ _ He) as [k [Hk Hle]].
    rewrite Em in Hk. inversion Hk; subst k. lia.
  - intros _. exists 1. split; [reflexivity|].
    apply max_rowid_none in Em. subst t. intros e [].
Qed.

Lemma in_place (e x : Expense) (t : list Expense) :
  In x (place e t) <-> x = e \/ In x t.
Proof.
  induction t as [|y t IH]; simpl.
  - split; intros [H|[]]; left; now symmetry.
  - destruct (id e <? id y); simpl.
    + split; (intros [H|H]; [left; now symmetry | now right]).
    + rewrite IH. split.
      * intros [H|[H|H]]; [right; now left | now left | right; now right].
      * intros [H|[H|H]]; [right; now left | now left | right; now right].
Qed.

Lemma in_ids_place (e : Expense) (pk : Z) (t : list Expense) :
  In pk (ids (place e t)) <-> pk = id e \/ In pk (ids t).
Proof.
  unfold ids. rewrite !in_map_iff. split.
  - intros [x [Hx Hin]]. apply in_place in Hin.
    destruct Hin as [Hin|Hin]; [left; now subst|right].
    exists x. now split.
  - intros [H|[x [Hx Hin]]].
    + exists e. split; [now symmetry|]. apply in_place. now left.
    + exists x. split; [exact Hx|]. apply in_place. now right.
Qed.

Lemma NoDup_place (e : Expense) (t : list Expense) :
  NoDup (ids t) -> ~ In (id e) (ids t) -> NoDup (ids (place e t)).
Proof.
  induction t as [|y t IH]; simpl; intros Hu Hf.
  - constructor; [intros []|constructor].
  - destruct (id e <? id y); simpl.
    + constructor; assumption.
    + inversion Hu as [|? ? Hy Hu']; subst. constructor.
      * intros Hin. apply in_ids_place in Hin.
        destruct Hin as [Hin|Hin]; [|contradiction].
        apply Hf. left. now symmetry.
      * apply IH; [exact Hu'|]. intros Hin. apply Hf. now right.
Qed.

Lemma find_placed (e : Expense) (t : list Expense) :
  ~ In (id e) (ids t) -> find (has_id (id e)) (place e t) = Some e.
Proof.
  induction t as [|y t IH]; simpl; intros Hf.
  - unfold has_id. now rewrite Z.eqb_refl.
  - destruct (id e <? id y); simpl.
    + unfold has_id at 1. now rewrite Z.eqb_refl.
    + unfold has_id at 1.
      destruct (Z.eqb_spec (id y) (id e)) as [E|E].
      * exfalso. apply Hf. now left.
      * apply IH. intros Hin. apply Hf. now right.
Qed.

Lemma filter_place_out (f : Expense -> bool) (e : Expense)
      (t : list Expense) :
  f e = false -> filter f (place e t) = filter f t.
Proof.
  intros He. induction t as [|y t IH]; simpl.
  - now rewrite He.
  - destruct (id e <? id y); simpl.
    + now rewrite He.
    + now rewrite IH.
Qed.

Lemma place_last (e : Expense) (t : list Expense) :
  (forall x, In x t -> id x < id e) -> place e t = t ++ [e].
Proof.
  induction t as [|y t IH]; simpl; intros H; [reflexivity|].
  destruct (Z.ltb_spec (id e) (id y)) as [Hlt|Hge].
  - pose proof (H y (or_introl eq_refl)). lia.
  - f_equal. apply IH. intros x Hx. apply H. now right.
Qed.

Lemma length_place (e : Expense) (t : list Expense) :
  List.length (place e t) = S (List.length t).
Proof.
  induction t as [|y t IH]; simpl; [reflexivity|].
  destruct (id e <? id y); simpl; [reflexivity|now rewrite IH].
Qed.

(** *** Rows after an update or a delete *)

Lemma ids_assign (pk : Z) d a dt (t : list Expense) :
  ids (map (assign pk d a dt) t) = ids t.
Proof.
  unfold ids. rewrite map_map. apply map_ext.
  intros e. unfold assign. now destruct (has_id pk e).
Qed.

Lemma find_assigned (pk : Z) d a dt (t : list Expense) (e : Expense) :
  find (has_id pk) t = Some e ->
  exists e', find (has_id pk) (map (assign pk d a dt) t) = Some e'
             /\ id e' = pk /\ description e' = Some d
             /\ amount e' = stored a /\ date e' = Some dt.
Proof.
  induction t as [|x t IH]; simpl; intros H; [discriminate|].
  destruct (has_id pk x) eqn:E.
  - exists (assign pk d a dt x).
    assert (Hx : has_id pk (assign pk d a dt x) = true).
    { unfold assign. rewrite E. exact E. }
    rewrite Hx. split; [reflexivity|].
    unfold assign. rewrite E. simpl.
    unfold has_id in E. apply Z.eqb_eq in E. repeat split. exact E.
  - assert (Hx : assign pk d a dt x = x).
    { unfold assign. now rewrite E. }
    rewrite Hx, E. now apply IH.
Qed.

Lemma ids_without (pk : Z) (t : list Expense) :
  ids (filter (fun e => negb (has_id pk e)) t)
  = filter (fun i => negb (i =? pk)) (ids t).
Proof.
  induction t as [|x t IH]; simpl; [reflexivity|].
  unfold has_id at 1. destruct (id x =? pk); simpl; now rewrite IH.
Qed.

Lemma without_absent (pk : Z) (t : list Expense) :
  ~ In pk (ids (filter (fun e => negb (has_id pk e)) t)).
Proof.
  rewrite ids_without. intros H. apply filter_In in H.
  destruct H as [_ H]. rewrite Z.eqb_refl in H. discriminate.
Qed.

Lemma without_absent_id (pk : Z) (t : list Expense) :
  ~ In pk (ids t) -> filter (fun e => negb (has_id pk e)) t = t.
Proof.
  induction t as [|x t IH]; simpl; intros H; [reflexivity|].
  unfold has_id at 1.
  destruct (Z.eqb_spec (id x) pk) as [E|E]; simpl.
  - exfalso. apply H. now left.
  - f_equal. apply IH. intros Hin. apply H. now right.
Qed.

Lemma assign_absent_id (pk : Z) d a dt (t : list Expense) :
  ~ In pk (ids t) -> map (assign pk d a dt) t = t.
Proof.
  induction t as [|x t IH]; simpl; intros H; [reflexivity|].
  unfold assign at 1. unfold has_id at 1.
  destruct (Z.eqb_spec (id x) pk) as [E|E].
  - exfalso. apply H. now left.
  - f_equal. apply IH. intros Hin. apply H. now right.
Qed.

(** *** What the writes answer and leave *)

Lemma add_commit_assigned (db : Session) d a dt (pk : Z) :
  assigned db = Some pk ->
  exists e,
    add_commit d a dt db
    = (Returns pk, mkSession (place e (table db)) (issued db ++ [INSERT]))
    /\ id e = pk /\ description e = Some d
    /\ amount e = stored a /\ date e = Some dt.
Proof.
  unfold assigned. intros H.
  destruct (new_rowid_fresh _ _ _ H) as [Hr _].
  destruct (row_some pk (Some d) (stored a) (Some dt) Hr)
    as [e [He Hfields]].
  exists e. run_handler. rewrite H, He. simpl. split; [reflexivity|].
  exact Hfields.
Qed.

Lemma add_commit_full (db : Session) d a dt :
  assigned db = None ->
  add_commit d a dt db
  = (Raises 500 "Internal Server Error",
     mkSession (table db) (issued db ++ [INSERT])).
Proof.
  unfold assigned. intros H. run_handler. now rewrite H.
Qed.

Lemma assigned_fresh (db : Session) (pk : Z) :
  assigned db = Some pk -> int64 pk = true /\ ~ In pk (ids (table db)).
Proof. unfold assigned. apply new_rowid_fresh. Qed.

(** What [POST /api/expenses/] does when the storage gives the key [pk]:
    the row is committed in every case, and the answer is the record when
    the column kept the amount, a 500 when it holds NULL. *)
Lemma create_expense_api_assigned (db : Session) (expense : ExpenseCreate)
      (pk : Z) :
  assigned db = Some pk ->
  exists e,
    id e = pk /\ description e = Some (new_description expense)
    /\ amount e = stored (new_amount expense)
    /\ date e = Some (new_date expense)
    /\ table (snd (create_expense_api expense db)) = place e (table db)
    /\ fst (create_expense_api expense db)
       = match stored (new_amount expense) with
         | Some s => Returns (ExpenseRead_json
                                (mkExpenseRead pk (new_description expense)
                                               s (new_date expense)))
         | None => Raises 500 "Internal Server Error"
         end.
Proof.
  intros H. destruct (assigned_fresh _ _ H) as [_ Hf].
  destruct (add_commit_assigned db (new_description expense)
              (new_amount expense) (new_date expense) pk H)
    as [e [Hc [Hid [Hd [Ha Ht]]]]].
  exists e. repeat (split; [assumption|]).
  unfold create_expense_api, bind. rewrite Hc.
  unfold refresh, bind, issue, rows, ret, raise. simpl.
  rewrite <- Hid. rewrite find_placed by (rewrite Hid; exact Hf).
  simpl. unfold model_validate. rewrite Hd, Ha, Ht.
  destruct (stored (new_amount expense)); simpl; split; reflexivity.
Qed.

Lemma create_expense_api_full (db : Session) (expense : ExpenseCreate) :
  assigned db = None ->
  fst (create_expense_api expense db) = Raises 500 "Internal Server Error"
  /\ table (snd (create_expense_api expense db)) = table db.
Proof.
  intros H. unfold create_expense_api, bind.
  rewrite add_commit_full by exact H. split; reflexivity.
Qed.

Lemma add_expense_assigned (db : Session) d a dt (pk : Z) :
  assigned db = Some pk ->
  exists e,
    id e = pk /\ description e = Some d /\ amount e = stored a
    /\ date e = Some dt
    /\ table (snd (add_expense d a dt db)) = place e (table db)
    /\ fst (add_expense d a dt db) = Returns (RedirectResponse "/" 303).
Proof.
  intros H. destruct (assigned_fresh _ _ H) as [_ Hf].
  destruct (add_commit_assigned db d a dt pk H)
    as [e [Hc [Hid [Hd [Ha Ht]]]]].
  exists e. repeat (split; [assumption|]).
  unfold add_expense, bind. rewrite Hc.
  unfold refresh, bind, issue, rows, ret, raise. simpl.
  rewrite <- Hid. rewrite find_placed by (rewrite Hid; exact Hf).
  split; reflexivity.
Qed.

Lemma add_expense_full (db : Session) d a dt :
  assigned db = None ->
  fst (add_expense d a dt db) = Raises 500 "Internal Server Error"
  /\ table (snd (add_expense d a dt db)) = table db.
Proof.
  intros H. unfold add_expense, bind.
  rewrite add_commit_full by exact H. split; reflexivity.
Qed.

Lemma update_expense_api_table (db : Session) (i : Z) (e : ExpenseUpdate) :
  table (snd (update_expense_api i e db))
  = map (assign i (new_description e) (new_amount e) (new_date e))
        (table db).
Proof.
  unfold update_expense_api, bind.
  destruct (int64 i) eqn:Hr.
  - rewrite query_first_in_range by exact Hr.
    destruct (find (has_id i) (table db)) as [x|] eqn:E; simpl.
    + destruct (find_has_id _ _ _ E) as [Hid _]. rewrite Hid.
      destruct (find_assigned i (new_description e) (new_amount e)
                  (new_date e) _ _ E) as [x' [Hx' _]].
      run_handler. rewrite Hx'. simpl.
      now destruct (model_validate x').
    + symmetry. apply assign_absent_id. now apply find_none_absent.
  - rewrite query_first_out_of_range by exact Hr. simpl.
    symmetry. apply assign_absent_id. now apply out_of_range_absent.
Qed.

Lemma update_expense_table (db : Session) (i : Z) d a dt :
  table (snd (update_expense i d a dt db))
  = map (assign i d a dt) (table db).
Proof.
  unfold update_expense, bind.
  destruct (int64 i) eqn:Hr.
  - rewrite query_first_in_range by exact Hr.
    destruct (find (has_id i) (table db)) as [x|] eqn:E; simpl.
    + destruct (find_has_id _ _ _ E) as [Hid _]. rewrite Hid.
      destruct (find_assigned i d a dt _ _ E) as [x' [Hx' _]].
      run_handler. now rewrite Hx'.
    + symmetry. apply assign_absent_id. now apply find_none_absent.
  - rewrite query_first_out_of_range by exact Hr. simpl.
    symmetry. apply assign_absent_id. now apply out_of_range_absent.
Qed.

Lemma delete_expense_api_table (db : Session) (i : Z) :
  table (snd (delete_expense_api i db))
  = filter (fun e => negb (has_id i e)) (table db).
Proof.
  unfold delete_expense_api, bind.
  destruct (int64 i) eqn:Hr.
  - rewrite query_first_in_range by exact Hr.
    destruct (find (has_id i) (table db)) as [x|] eqn:E; simpl.
    + destruct (find_has_id _ _ _ E) as [Hid _]. now rewrite Hid.
    + symmetry. apply without_absent_id. now apply find_none_absent.
  - rewrite query_first_out_of_range by exact Hr. simpl.
    symmetry. apply without_absent_id. now apply out_of_range_absent.
Qed.

Lemma delete_expense_table (db : Session) (i : Z) :
  table (snd (delete_expense i db))
  = filter (fun e => negb (has_id i e)) (table db).
Proof.
  unfold delete_expense, bind.
  destruct (int64 i) eqn:Hr.
  - rewrite query_first_in_range by exact Hr.
    destruct (find (has_id i) (table db)) as [x|] eqn:E; simpl.
    + destruct (find_has_id _ _ _ E) as [Hid _]. now rewrite Hid.
    + symmetry. apply without_absent_id. now apply find_none_absent.
  - rewrite query_first_out_of_range by exact Hr. simpl.
    symmetry. apply without_absent_id. now apply out_of_range_absent.
Qed.

Lemma below_top_assigned (db : Session) :
  below_top (table db) = true ->
  exists pk, assigned db = Some pk
             /\ (forall e, In e (table db) -> id e < pk)
             /\ (pk = 1 \/ In (pk - 1) (ids (table db))).
Proof.
  unfold assigned, below_top, new_rowid.
  destruct (max_rowid (table db)) as [m|] eqn:Em.
  - intros H. rewrite H. exists (m + 1). split; [reflexivity|]. split.
    + intros e He. destruct (max_rowid_bounds _ _ He) as [k [Hk Hle]].
      rewrite Em in Hk. inversion Hk; subst k. lia.
    + right. replace (m + 1 - 1) with m by lia.
      now apply max_rowid_held.
  - intros _. exists 1. split; [reflexivity|]. split; [|now left].
    apply max_rowid_none in Em. rewrite Em. intros e [].
Qed.

Lemma update_expense_form_answer (db : Session) (i : Z) :
  fst (update_expense_form i db)
  = if int64 i
    then match find (has_id i) (table db) with
         | Some e =>
             Returns (TemplateResponse "update_expense.html"
                                       (update_values e))
         | None => Raises 404 "Expense not found"
         end
    else Raises 500 "Internal Server Error".
Proof.
  unfold update_expense_form, bind. destruct (int64 i) eqn:Hr.
  - rewrite query_first_in_range by exact Hr.
    now destruct (find (has_id i) (table db)).
  - now rewrite query_first_out_of_range by exact Hr.
Qed.

Lemma update_expense_api_held (db : Session) (i : Z) (e : ExpenseUpdate) :
  In i (ids (table db)) ->
  fst (update_expense_api i e db)
  = match stored (new_amount e) with
    | Some s => Returns (ExpenseRead_json
                           (mkExpenseRead i (new_description e) s
                                          (new_date e)))
    | None => Raises 500 "Internal Server Error"
    end.
Proof.
  intros Hin. destruct (query_first_held _ _ Hin) as [x [Hq [Hx Hid]]].
  unfold update_expense_api, bind. rewrite Hq. rewrite Hid.
  destruct (find_assigned i (new_description e) (new_amount e)
              (new_date e) _ _ Hx) as [x' [Hx' [Hi [Hd [Ha Ht]]]]].
  run_handler. rewrite Hx'. simpl.
  unfold model_validate. rewrite Hd, Ha, Ht, Hi.
  now destruct (stored (new_amount e)).
Qed.

(** *** Creating *)

(** C1 (amended).  For an input whose amount is finite and kept by the
    column (as [s]): on a table whose largest key is below 2^63 - 1 the
    storage assigns a key; and whenever it assigns one,
    [POST /api/expenses/] answers with a record that carries the
    description and date of the input, the amount as kept, and that key
    as id, which no row of the table has; the table then holds the old
    rows and one new row, which the record shows. *)
Theorem create_expense_api_returns_kept_input_under_fresh_id :
  forall (db : Session) (expense : ExpenseCreate) (s : float),
  isfinite (new_amount expense) = true ->
  stored (new_amount expense) = Some s ->
  (below_top (table db) = true -> assigned db <> None)
  /\ (forall pk : Z,
      assigned db = Some pk ->
      exists (r : ExpenseRead) (e : Expense),
        fst (create_expense_api expense db) = Returns (ExpenseRead_json r)
        /\ read_id r = pk
        /\ read_description r = new_description expense
        /\ read_amount r = s
        /\ read_date r = new_date expense
        /\ ~ In (read_id r) (ids (table db))
        /\ shows e r
        /\ (forall x, In x (table (snd (create_expense_api expense db)))
                      <-> x = e \/ In x (table db))).
Proof.
  intros db expense s _ Hs. split.
  { intros Hb. destruct (below_top_assigned db Hb) as [pk [Hk _]].
    rewrite Hk. discriminate. }
  intros pk Hk.
  destruct (create_expense_api_assigned db expense pk Hk)
    as [e [Hid [Hd [Ha [Ht [Htab Hans]]]]]].
  rewrite Hs in Hans, Ha.
  exists (mkExpenseRead pk (new_description expense) s (new_date expense)), e.
  split; [exact Hans|]. cbn [read_id read_description read_amount read_date].
  repeat (split; [reflexivity|]).
  split; [apply (assigned_fresh _ _ Hk)|].
  split; [unfold shows; simpl; repeat split; assumption|].
  intros x. rewrite Htab. apply in_place.
Qed.

(** *** Round trip *)

(** C4 (amended).  When the amounts written are finite and the column
    keeps them: after a create, [GET /update/{id}] with the returned id shows a row with the
    created description and date and the amount as kept; after
    [PUT /api/expenses/{id}] on an id the table holds, it shows a row
    with exactly the three new values, the amount as kept, whatever the
    row held before. *)
Theorem create_and_update_round_trip :
  forall (db : Session) (expense : ExpenseCreate) (s : float) (pk : Z)
         (expense_id : Z) (changes : ExpenseUpdate) (s' : float),
  isfinite (new_amount expense) = true ->
  stored (new_amount expense) = Some s ->
  assigned db = Some pk ->
  isfinite (new_amount changes) = true ->
  stored (new_amount changes) = Some s' ->
  (exists (r : ExpenseRead) (e : Expense),
      fst (create_expense_api expense db) = Returns (ExpenseRead_json r)
      /\ read_id r = pk
      /\ fst (update_expense_form (read_id r)
                (snd (create_expense_api expense db)))
         = Returns (TemplateResponse "update_expense.html" (update_values e))
      /\ id e = pk
      /\ description e = Some (new_description expense)
      /\ amount e = Some s
      /\ date e = Some (new_date expense))
  /\ (In expense_id (ids (table db)) ->
      exists e' : Expense,
        fst (update_expense_api expense_id changes db)
        = Returns (ExpenseRead_json
                     (mkExpenseRead expense_id (new_description changes)
                                    s' (new_date changes)))
        /\ fst (update_expense_form expense_id
                  (snd (update_expense_api expense_id changes db)))
           = Returns (TemplateResponse "update_expense.html"
                                       (update_values e'))
        /\ id e' = expense_id
        /\ description e' = Some (new_description changes)
        /\ amount e' = Some s'
        /\ date e' = Some (new_date changes)).
Proof.
  intros db expense s pk i changes s' _ Hs Hk _ Hs'. split.
  - destruct (create_expense_api_assigned db expense pk Hk)
      as [e [Hid [Hd [Ha [Ht [Htab Hans]]]]]].
    destruct (assigned_fresh _ _ Hk) as [Hr Hf].
    rewrite Hs in Hans, Ha.
    exists (mkExpenseRead pk (new_description expense) s (new_date expense)), e.
    split; [exact Hans|]. cbn [read_id]. split; [reflexivity|].
    rewrite update_expense_form_answer, Hr, Htab.
    rewrite <- Hid at 1. rewrite find_placed by (rewrite Hid; exact Hf).
    repeat split; assumption.
  - intros Hin.
    destruct (find_present _ _ Hin) as [x [Hx _]].
    destruct (find_assigned i (new_description changes) (new_amount changes)
                (new_date changes) _ _ Hx) as [x' [Hx' [Hi [Hd [Ha Ht]]]]].
    exists x'.
    rewrite update_expense_api_held by exact Hin. rewrite Hs'.
    split; [reflexivity|].
    rewrite update_expense_form_answer, update_expense_api_table.
    rewrite (held_int64 _ _ Hin), Hx'. rewrite Hs' in Ha.
    repeat split; assumption.
Qed.

(** *** Ids the table does not hold *)

Lemma form_text_accepts (d : string) (h : handler response) :
  d <> "" -> form_text d h = h.
Proof. destruct d; [contradiction|reflexivity]. Qed.

(** C5 (amended).  An update addressed to an id that the table does not
    hold is answered 404 when the id is a 64-bit integer and 500 when it
    is not, by [PUT /api/expenses/{id}] and, for a form with a
    description, by [POST /update/{id}] alike, and the table is as it
    was. *)
Theorem update_of_absent_id_is_an_error :
  forall (db : Session) (today : nat -> datetime.date) (expense_id : Z)
         (expense : ExpenseUpdate)
         (d : string) (a : float) (t : datetime.date),
  ~ In expense_id (ids (table db)) ->
  d <> "" ->
  fst (app today (PUT_api_expenses expense_id expense) db)
  = (if int64 expense_id
     then Raises 404 "Expense not found"
     else Raises 500 "Internal Server Error")
  /\ table (snd (app today (PUT_api_expenses expense_id expense) db))
     = table db
  /\ fst (app today (POST_update expense_id d a t) db)
     = (if int64 expense_id
        then Raises 404 "Expense not found"
        else Raises 500 "Internal Server Error")
  /\ table (snd (app today (POST_update expense_id d a t) db)) = table db.
Proof.
  intros db today i e d a t Habs Hd. cbn [app].
  rewrite (form_text_accepts _ _ Hd).
  rewrite update_expense_api_table, update_expense_table.
  rewrite !assign_absent_id by exact Habs.
  apply find_absent in Habs.
  unfold update_expense_api, update_expense, bind.
  destruct (int64 i) eqn:Hr.
  - rewrite query_first_in_range by exact Hr. rewrite Habs.
    repeat split.
  - rewrite query_first_out_of_range by exact Hr. repeat split.
Qed.

(** C10 (amended).  A delete addressed to an id that the table does not
    hold is answered 404 when the id is a 64-bit integer and 500 when it
    is not, by [DELETE /api/expenses/{id}] and by [POST /delete/{id}]
    alike, and the table is as it was. *)
Theorem delete_of_absent_id_is_an_error :
  forall (db : Session) (expense_id : Z),
  ~ In expense_id (ids (table db)) ->
  fst (delete_expense_api expense_id db)
  = (if int64 expense_id
     then Raises 404 "Expense not found"
     else Raises 500 "Internal Server Error")
  /\ table (snd (delete_expense_api expense_id db)) = table db
  /\ fst (delete_expense expense_id db)
     = (if int64 expense_id
        then Raises 404 "Expense not found"
        else Raises 500 "Internal Server Error")
  /\ table (snd (delete_expense expense_id db)) = table db.
Proof.
  intros db i Habs.
  rewrite delete_expense_api_table, delete_expense_table.
  rewrite !without_absent_id by exact Habs.
  apply find_absent in Habs.
  unfold delete_expense_api, delete_expense, bind.
  destruct (int64 i) eqn:Hr.
  - rewrite query_first_in_range by exact Hr. rewrite Habs.
    repeat split.
  - rewrite query_first_out_of_range by exact Hr. repeat split.
Qed.

(** *** Deleting *)

Lemma validate_all_ids (t : list Expense) (l : list ExpenseRead) :
  validate_all t = Some l -> map read_id l = ids t.
Proof.
  revert l. induction t as [|e t IH]; simpl; intros l H.
  - now inversion H.
  - unfold model_validate in H.
    destruct (description e), (amount e), (date e); try discriminate.
    destruct (validate_all t) as [xs|]; [|discriminate].
    inversion H; subst l. simpl. now rewrite (IH xs eq_refl).
Qed.

Lemma listed_read_expenses_api (db : Session) (i : Z) :
  In i (listed (fst (read_expenses_api db))) -> In i (ids (table db)).
Proof.
  run_handler.
  destruct (validate_all (table db)) as [l|] eqn:E; simpl.
  - now rewrite (validate_all_ids _ _ E).
  - contradiction.
Qed.

Lemma delete_expense_api_held (db : Session) (i : Z) :
  In i (ids (table db)) ->
  fst (delete_expense_api i db) = Returns (detail_json "Expense deleted").
Proof.
  intros Hin. destruct (query_first_held _ _ Hin) as [x [Hq _]].
  unfold delete_expense_api, bind. now rewrite Hq.
Qed.

Lemma delete_expense_held (db : Session) (i : Z) :
  In i (ids (table db)) ->
  fst (delete_expense i db) = Returns (RedirectResponse "/" 303).
Proof.
  intros Hin. destruct (query_first_held _ _ Hin) as [x [Hq _]].
  unfold delete_expense, bind. now rewrite Hq.
Qed.

(** C6.  Deleting an id that the table holds succeeds; afterwards the id
    is not in the table, not in what [GET /api/expenses/] or [GET /]
    list, [GET /update/{id}] answers 404, and a second delete of the id
    answers 404. *)
Theorem deleted_id_is_gone :
  forall (db : Session) (expense_id : Z),
  In expense_id (ids (table db)) ->
  let db' := snd (delete_expense_api expense_id db) in
  fst (delete_expense_api expense_id db)
  = Returns (detail_json "Expense deleted")
  /\ ~ In expense_id (ids (table db'))
  /\ ~ In expense_id (listed (fst (read_expenses_api db')))
  /\ ~ In expense_id (listed (fst (read_root db')))
  /\ fst (update_expense_form expense_id db')
     = Raises 404 "Expense not found"
  /\ fst (delete_expense_api expense_id db')
     = Raises 404 "Expense not found".
Proof.
  intros db expense_id Hin db'.
  assert (Hr : int64 expense_id = true) by (eapply held_int64; eassumption).
  assert (Htab : table db'
                 = filter (fun x => negb (has_id expense_id x)) (table db))
    by apply delete_expense_api_table.
  assert (Hgone : ~ In expense_id (ids (table db'))).
  { rewrite Htab. apply without_absent. }
  split; [now apply delete_expense_api_held|]. split; [exact Hgone|].
  split; [intros H; apply Hgone; now apply listed_read_expenses_api|].
  split; [exact Hgone|].
  apply find_absent in Hgone.
  rewrite update_expense_form_answer, Hr, Hgone. split; [reflexivity|].
  unfold delete_expense_api, bind.
  rewrite query_first_in_range by exact Hr. now rewrite Hgone.
Qed.

(** *** Reads *)

(** C9.  The five GET routes leave the table as it was. *)
Theorem reads_leave_the_table_unchanged :
  forall (db : Session) (today : nat -> datetime.date) (expense_id : Z),
  table (snd (read_root db)) = table db
  /\ table (snd (add_expense_form db)) = table db
  /\ table (snd (update_expense_form expense_id db)) = table db
  /\ table (snd (read_expenses_api db)) = table db
  /\ table (snd (total_expenses_api today db)) = table db.
Proof.
  intros db today expense_id.
  split; [reflexivity|]. split; [reflexivity|]. split.
  - unfold update_expense_form, bind. destruct (int64 expense_id) eqn:Hr.
    + rewrite query_first_in_range by exact Hr.
      now destruct (find (has_id expense_id) (table db)).
    + now rewrite query_first_out_of_range by exact Hr.
  - run_handler. destruct (validate_all (table db)); split; reflexivity.
Qed.

(** *** Totals *)

Lemma or_zero_func_sum (xs : list (option float)) :
  or_zero (func_sum xs) = number_or_zero (total_of (non_null xs)).
Proof.
  unfold func_sum, number_or_zero.
  destruct (non_null xs) as [|v vs].
  - simpl. now destruct (isnan (total_of [])).
  - destruct (isnan (total_of (v :: vs))); [reflexivity|].
    simpl or_zero.
    destruct (truth (total_of (v :: vs))) eqn:E; [reflexivity|].
    symmetry. now apply falsy_total.
Qed.

Lemma where_current_month (d : datetime.date) (t : list Expense) :
  filter (fun e => sql_eq (extract_month (date e)) (datetime.month d)
                   && sql_eq (extract_year (date e)) (datetime.year d)) t
  = filter (same_month d) t.
Proof.
  apply filter_ext. intros e. unfold same_month.
  now destruct (date e).
Qed.

Lemma filter_nothing {A} (f : A -> bool) (l : list A) :
  (forall x, In x l -> f x = false) -> filter f l = [].
Proof.
  induction l as [|x l IH]; simpl; intros H; [reflexivity|].
  rewrite (H x (or_introl eq_refl)). apply IH.
  intros y Hy. apply H. now right.
Qed.

(** What [GET /api/expenses/total] answers for any two readings of the
    clock: the month comes from the first, the year from the second. *)
Lemma total_expenses_api_answer (db : Session) (today : nat -> datetime.date) :
  fst (total_expenses_api today db)
  = Returns (float_json (number_or_zero (total_of (non_null (map amount
      (filter (fun e =>
                 sql_eq (extract_month (date e))
                        (datetime.month (today 0%nat))
                 && sql_eq (extract_year (date e))
                           (datetime.year (today 1%nat)))
              (table db))))))).
Proof. run_handler. now rewrite or_zero_func_sum. Qed.

(** C3 (amended).  With the clock at one date for the length of the call,
    [GET /api/expenses/total] answers the total of the amounts of the
    rows dated in the month and year of that date, all of them and no
    other row, when that total is a finite number, and [0.0] when it is
    NaN; it answers [0.0] when no row is dated so. *)
Theorem total_expenses_api_sums_the_current_month :
  forall (db : Session) (current : datetime.date),
  (isfinite (number_or_zero
               (total_of (non_null (map amount
                  (filter (same_month current) (table db)))))) = true ->
   fst (total_expenses_api (fun _ => current) db)
   = Returns (float_json
                (number_or_zero
                   (total_of (non_null (map amount
                      (filter (same_month current) (table db))))))))
  /\ ((forall e, In e (table db) -> same_month current e = false) ->
      fst (total_expenses_api (fun _ => current) db)
      = Returns (float_json zero)).
Proof.
  intros db current.
  assert (H : fst (total_expenses_api (fun _ => current) db)
              = Returns (float_json
                   (number_or_zero
                      (total_of (non_null (map amount
                         (filter (same_month current) (table db)))))))).
  { rewrite total_expenses_api_answer. now rewrite where_current_month. }
  split; [intros _; exact H|].
  intros Hnone. rewrite H.
  rewrite (filter_nothing _ _ Hnone). simpl.
  unfold number_or_zero. now destruct (isnan (total_of [])).
Qed.

(** *** The ledger of creates and deletes *)

Lemma priced_amounts (t : list Expense) :
  non_null (map amount t) = map snd (priced t).
Proof.
  induction t as [|e t IH]; simpl; [reflexivity|].
  destruct (amount e); simpl; now rewrite IH.
Qed.

Lemma priced_app (t u : list Expense) :
  priced (t ++ u) = priced t ++ priced u.
Proof.
  induction t as [|e t IH]; simpl; [reflexivity|].
  destruct (amount e); simpl; now rewrite IH.
Qed.

Lemma priced_without (pk : Z) (t : list Expense) :
  priced (filter (fun e => negb (has_id pk e)) t) = forget pk (priced t).
Proof.
  unfold forget. induction t as [|e t IH]; simpl; [reflexivity|].
  unfold has_id at 1.
  destruct (id e =? pk) eqn:E; simpl.
  - destruct (amount e); simpl; [rewrite E; simpl|]; exact IH.
  - destruct (amount e); simpl; [rewrite E; simpl; f_equal|]; exact IH.
Qed.

Lemma delete_expense_api_succeeded (db : Session) (i : Z) :
  succeeded (fst (delete_expense_api i db)) = false ->
  ~ In i (ids (table db)).
Proof.
  intros H Hin. rewrite delete_expense_api_held in H by exact Hin.
  discriminate.
Qed.

Lemma delete_expense_succeeded (db : Session) (i : Z) :
  succeeded (fst (delete_expense i db)) = false ->
  ~ In i (ids (table db)).
Proof.
  intros H Hin. rewrite delete_expense_held in H by exact Hin.
  discriminate.
Qed.

Lemma play_priced (ops : list op) :
  forall (db : Session) (l : ledger) (k : Z),
  0 <= k ->
  (forall e, In e (table db) -> id e <= k) ->
  k + Z.of_nat (List.length ops) < top_rowid ->
  priced (table db) = l ->
  priced (table (fst (play ops db l))) = snd (play ops db l).
Proof.
  induction ops as [|o ops IH]; intros db l k Hk Hb Hn H; [exact H|].
  cbn [List.length] in Hn. rewrite Nat2Z.inj_succ in Hn.
  destruct o as [e|i|i]; cbn [play].
  - assert (Hbt : below_top (table db) = true).
    { unfold below_top. destruct (max_rowid (table db)) as [m|] eqn:Em;
        [|reflexivity].
      apply max_rowid_held in Em. unfold ids in Em.
      apply in_map_iff in Em. destruct Em as [x [Hx Hin]].
      apply Z.ltb_lt. pose proof (Hb x Hin). lia. }
    destruct (below_top_assigned db Hbt) as [pk [Ha [Hlt Hpk]]].
    destruct (create_expense_api_assigned db e pk Ha)
      as [x [Hid [_ [Hamt [_ [Htab Hans]]]]]].
    destruct (create_expense_api e db) as [o db'] eqn:Ec.
    cbn [fst snd] in Htab, Hans.
    apply (IH db' _ (k + 1)).
    + lia.
    + intros y Hy. rewrite Htab in Hy. apply in_place in Hy.
      destruct Hy as [Hy|Hy].
      * subst y. rewrite Hid. destruct Hpk as [Hpk|Hpk]; [lia|].
        unfold ids in Hpk. apply in_map_iff in Hpk.
        destruct Hpk as [z [Hz Hin]]. pose proof (Hb z Hin). lia.
      * pose proof (Hb y Hy). lia.
    + lia.
    + rewrite Htab.
      rewrite place_last by (intros y Hy; rewrite Hid; now apply Hlt).
      rewrite priced_app, H. simpl. rewrite Hamt, Hans.
      destruct (stored (new_amount e)); simpl; [|now rewrite app_nil_r].
      now rewrite Hid.
  - pose proof (delete_expense_api_table db i) as Htab.
    pose proof (delete_expense_api_succeeded db i) as Hs.
    destruct (delete_expense_api i db) as [o db'] eqn:Ed.
    cbn [fst snd] in Htab, Hs.
    apply (IH db' _ k).
    + exact Hk.
    + intros y Hy. rewrite Htab in Hy. apply filter_In in Hy. now apply Hb.
    + lia.
    + rewrite Htab. destruct (succeeded o).
      * rewrite priced_without. now rewrite H.
      * rewrite without_absent_id by now apply Hs. exact H.
  - pose proof (delete_expense_table db i) as Htab.
    pose proof (delete_expense_succeeded db i) as Hs.
    destruct (delete_expense i db) as [o db'] eqn:Ed.
    cbn [fst snd] in Htab, Hs.
    apply (IH db' _ k).
    + exact Hk.
    + intros y Hy. rewrite Htab in Hy. apply filter_In in Hy. now apply Hb.
    + lia.
    + rewrite Htab. destruct (succeeded o).
      * rewrite priced_without. now rewrite H.
      * rewrite without_absent_id by now apply Hs. exact H.
Qed.

(** C2 (amended).  After any sequence of creates and deletes on a new
    database (fewer than 2^63 - 1 of them), the total that [GET /] shows
    is the sum of the amounts created and not deleted since, as the
    column keeps them, when that sum is a number, and [0.0] when the sum
    is NaN; on an empty table it is [0.0]. *)
Theorem sum_all_is_the_sum_of_live_amounts :
  forall (ops : list op),
  Z.of_nat (List.length ops) < top_rowid ->
  (let (db, l) := play ops new_database [] in
   fst (read_root db)
   = Returns (TemplateResponse "index.html"
                (index_values (table db)
                              (number_or_zero (total_of (map snd l))))))
  /\ (forall q : list statement,
      fst (read_root (mkSession [] q))
      = Returns (TemplateResponse "index.html" (index_values [] zero))).
Proof.
  intros ops Hn. split; [|reflexivity].
  assert (H : priced (table (fst (play ops new_database [])))
              = snd (play ops new_database [])).
  { apply (play_priced ops new_database [] 0).
    - lia.
    - intros e [].
    - lia.
    - reflexivity. }
  destruct (play ops new_database []) as [db l]. simpl in H.
  run_handler. rewrite or_zero_func_sum.
  now rewrite priced_amounts, H.
Qed.

(** *** The invariant of the table *)

Lemma keyed_place (e : Expense) (t : list Expense) :
  keyed t -> ~ In (id e) (ids t) -> labelled e = true -> keyed (place e t).
Proof.
  intros [Hu Hp] Hf He. split; [now apply NoDup_place|].
  apply Forall_forall. intros x Hx. apply in_place in Hx.
  destruct Hx as [Hx|Hx]; [now subst|].
  rewrite Forall_forall in Hp. now apply Hp.
Qed.

Lemma well_formed_place (e : Expense) (t : list Expense) :
  well_formed t -> ~ In (id e) (ids t) -> populated e = true ->
  well_formed (place e t).
Proof.
  intros [Hu Hp] Hf He. split; [now apply NoDup_place|].
  apply Forall_forall. intros x Hx. apply in_place in Hx.
  destruct Hx as [Hx|Hx]; [now subst|].
  rewrite Forall_forall in Hp. now apply Hp.
Qed.

Lemma keyed_assign (pk : Z) d a dt (t : list Expense) :
  keyed t -> keyed (map (assign pk d a dt) t).
Proof.
  intros [Hu Hp]. split.
  - now rewrite ids_assign.
  - apply Forall_map. apply Forall_impl with (2 := Hp).
    intros e He. unfold assign. now destruct (has_id pk e).
Qed.

Lemma well_formed_assign (pk : Z) d a dt (t : list Expense) :
  keeps a = true -> well_formed t -> well_formed (map (assign pk d a dt) t).
Proof.
  intros Ha [Hu Hp]. split.
  - now rewrite ids_assign.
  - apply Forall_map. apply Forall_impl with (2 := Hp).
    intros e He. unfold assign. destruct (has_id pk e); [|exact He].
    unfold populated. simpl. unfold keeps in Ha.
    now destruct (stored a).
Qed.

Lemma keyed_without (pk : Z) (t : list Expense) :
  keyed t -> keyed (filter (fun e => negb (has_id pk e)) t).
Proof.
  intros [Hu Hp]. split.
  - rewrite ids_without. now apply NoDup_filter.
  - apply Forall_forall. intros e He. apply filter_In in He.
    rewrite Forall_forall in Hp. now apply Hp.
Qed.

Lemma well_formed_without (pk : Z) (t : list Expense) :
  well_formed t -> well_formed (filter (fun e => negb (has_id pk e)) t).
Proof.
  intros [Hu Hp]. split.
  - rewrite ids_without. now apply NoDup_filter.
  - apply Forall_forall. intros e He. apply filter_In in He.
    rewrite Forall_forall in Hp. now apply Hp.
Qed.

(** What a request leaves in the table: the table as it was, the table
    with one row placed under a new key, with a row reassigned, or
    without a row. *)
Lemma app_table (today : nat -> datetime.date) (r : request) (db : Session) :
  table (snd (app today r db)) = table db
  \/ (exists e, table (snd (app today r db)) = place e (table db)
                /\ ~ In (id e) (ids (table db))
                /\ labelled e = true
                /\ (amount_kept r = true -> populated e = true))
  \/ (exists i d a t,
         table (snd (app today r db)) = map (assign i d a t) (table db)
         /\ (amount_kept r = true -> keeps a = true))
  \/ (exists i, table (snd (app today r db))
                = filter (fun e => negb (has_id i e)) (table db)).
Proof.
  assert (placed : forall e pk d a t,
             assigned db = Some pk -> id e = pk ->
             description e = Some d -> amount e = stored a ->
             date e = Some t ->
             ~ In (id e) (ids (table db)) /\ labelled e = true
             /\ (keeps a = true -> populated e = true)).
  { intros e pk d a t Hk Hid Hd Ha Ht.
    destruct (assigned_fresh _ _ Hk) as [_ Hf].
    split; [now rewrite Hid|].
    unfold labelled, populated, keeps. rewrite Hd, Ha, Ht.
    split; [reflexivity|]. now destruct (stored a). }
  destruct r as [| |d a t|i|i d a t|i|e| | |i e|i]; cbn [app amount_kept].
  - now left.
  - now left.
  - destruct d as [|c d']; [now left|]. cbn [form_text].
    set (d := String c d').
    destruct (assigned db) as [pk|] eqn:Hk.
    + destruct (add_expense_assigned db d a t pk Hk)
        as [x [Hid [Hd [Ha [Ht [Htab _]]]]]].
      right. left. exists x. split; [exact Htab|].
      exact (placed x pk d a t eq_refl Hid Hd Ha Ht).
    + left. apply (add_expense_full db d a t Hk).
  - left. unfold update_expense_form, bind. destruct (int64 i) eqn:Hr.
    + rewrite query_first_in_range by exact Hr.
      now destruct (find (has_id i) (table db)).
    + now rewrite query_first_out_of_range by exact Hr.
  - destruct d as [|c d']; [now left|]. cbn [form_text].
    right. right. left. exists i, (String c d'), a, t.
    split; [apply update_expense_table|exact (fun H => H)].
  - right. right. right. exists i. apply delete_expense_table.
  - destruct (assigned db) as [pk|] eqn:Hk.
    + destruct (create_expense_api_assigned db e pk Hk)
        as [x [Hid [Hd [Ha [Ht [Htab _]]]]]].
      right. left. exists x. split; [exact Htab|].
      exact (placed x pk _ _ _ eq_refl Hid Hd Ha Ht).
    + left. apply (create_expense_api_full db e Hk).
  - left. run_handler. now destruct (validate_all (table db)).
  - now left.
  - right. right. left.
    exists i, (new_description e), (new_amount e), (new_date e).
    split; [apply update_expense_api_table|exact (fun H => H)].
  - right. right. right. exists i. apply delete_expense_api_table.
Qed.

Lemma app_keeps_keyed (today : nat -> datetime.date) (r : request)
      (db : Session) :
  keyed (table db) -> keyed (table (snd (app today r db))).
Proof.
  intros H.
  destruct (app_table today r db)
    as [E|[[e [E [Hf [Hl _]]]]|[[i [d [a [t [E _]]]]]|[i E]]]]; rewrite E.
  - exact H.
  - now apply keyed_place.
  - now apply keyed_assign.
  - now apply keyed_without.
Qed.

Lemma app_keeps_well_formed (today : nat -> datetime.date) (r : request)
      (db : Session) :
  amount_kept r = true ->
  well_formed (table db) -> well_formed (table (snd (app today r db))).
Proof.
  intros Hk H.
  destruct (app_table today r db)
    as [E|[[e [E [Hf [_ Hp]]]]|[[i [d [a [t [E Ha]]]]]|[i E]]]]; rewrite E.
  - exact H.
  - apply well_formed_place; auto.
  - apply well_formed_assign; auto.
  - now apply well_formed_without.
Qed.

(** C8 (amended).  Serving any requests keeps the ids of the table
    pairwise distinct and keeps every row its description and its date;
    when no request writes an amount that the column does not keep (NaN),
    it also keeps every row its amount.  The table of a new database has
    all of this, so every table the application reaches from it has. *)
Theorem served_table_stays_keyed :
  forall (reqs : list ((nat -> datetime.date) * request)) (db : Session),
  (keyed (table db) -> keyed (table (serve reqs db)))
  /\ (forallb (fun q => amount_kept (snd q)) reqs = true ->
      well_formed (table db) -> well_formed (table (serve reqs db))).
Proof.
  induction reqs as [|[today r] reqs IH]; intros db; simpl.
  - split; auto.
  - destruct (IH (snd (app today r db))) as [IH1 IH2]. split.
    + intros H. apply IH1. now apply app_keeps_keyed.
    + intros Hk H. apply andb_prop in Hk. destruct Hk as [Hr Hk].
      apply IH2; [exact Hk|]. now apply app_keeps_well_formed.
Qed.

(** ** Further properties of the handlers *)

(** *** The web routes that write *)

(** X1.  [POST /add] with a description, on a table whose largest key
    is below 2^63 - 1, answers with a 303 redirect to [/]; the table is
    then the old rows, in their order, followed by one new row that holds
    the description and the date of the form and the amount as the column
    keeps it, under an id no old row has, and [GET /] lists the old ids
    followed by the new one. *)
Theorem add_expense_appends_one_row :
  forall (db : Session) (today : nat -> datetime.date)
         (d : string) (a : float) (t : datetime.date),
  d <> "" ->
  below_top (table db) = true ->
  exists e : Expense,
    ~ In (id e) (ids (table db))
    /\ description e = Some d
    /\ amount e = stored a
    /\ date e = Some t
    /\ fst (app today (POST_add d a t) db)
       = Returns (RedirectResponse "/" 303)
    /\ table (snd (app today (POST_add d a t) db)) = table db ++ [e]
    /\ listed (fst (read_root (snd (app today (POST_add d a t) db))))
       = ids (table db) ++ [id e].
Proof.
  intros db today d a t Hd Hb. cbn [app].
  rewrite (form_text_accepts _ _ Hd).
  destruct (below_top_assigned db Hb) as [pk [Hk [Hlt _]]].
  destruct (add_expense_assigned db d a t pk Hk)
    as [e [Hid [Hde [Ha [Ht [Htab Hans]]]]]].
  destruct (assigned_fresh _ _ Hk) as [_ Hf].
  assert (Hlast : place e (table db) = table db ++ [e]).
  { apply place_last. intros y Hy. rewrite Hid. now apply Hlt. }
  exists e. split; [now rewrite Hid|].
  repeat (split; [assumption|]).
  split; [now rewrite Htab|].
  change (listed (fst (read_root (snd (add_expense d a t db)))))
    with (ids (table (snd (add_expense d a t db)))).
  rewrite Htab, Hlast. unfold ids. now rewrite map_app.
Qed.

Lemma update_expense_held (db : Session) (i : Z) d a dt :
  In i (ids (table db)) ->
  fst (update_expense i d a dt db) = Returns (RedirectResponse "/" 303).
Proof.
  intros Hin. destruct (query_first_held _ _ Hin) as [x [Hq [Hx Hid]]].
  unfold update_expense, bind. rewrite Hq. rewrite Hid.
  destruct (find_assigned i d a dt _ _ Hx) as [x' [Hx' _]].
  run_handler. now rewrite Hx'.
Qed.

(** X2.  [POST /update/{id}] with a description, on an id the table
    holds, answers with a 303 redirect to [/]; the ids of the table and
    their order are as before, every row under another id is still
    there, and a row under the addressed id holds the description and
    the date of the form and the amount as the column keeps it. *)
Theorem update_expense_replaces_only_the_addressed_row :
  forall (db : Session) (today : nat -> datetime.date) (expense_id : Z)
         (d : string) (a : float) (t : datetime.date),
  d <> "" ->
  In expense_id (ids (table db)) ->
  let db' := snd (app today (POST_update expense_id d a t) db) in
  fst (app today (POST_update expense_id d a t) db)
  = Returns (RedirectResponse "/" 303)
  /\ ids (table db') = ids (table db)
  /\ (forall e, In e (table db) -> id e <> expense_id -> In e (table db'))
  /\ (forall e, In e (table db') -> id e = expense_id ->
      description e = Some d /\ amount e = stored a /\ date e = Some t).
Proof.
  intros db today i d a t Hd Hin db'. subst db'. cbn [app].
  rewrite (form_text_accepts _ _ Hd).
  assert (Htab : table (snd (update_expense i d a t db))
                 = map (assign i d a t) (table db))
    by apply update_expense_table.
  split; [now apply update_expense_held|].
  rewrite Htab. split; [apply ids_assign|]. split.
  - intros e He Hne. apply in_map_iff. exists e. split; [|exact He].
    unfold assign, has_id. destruct (Z.eqb_spec (id e) i); congruence.
  - intros e He Hid. apply in_map_iff in He. destruct He as [x [Hx _]].
    subst e. unfold assign, has_id in *.
    destruct (Z.eqb_spec (id x) i) as [E|E]; simpl in Hid.
    + simpl. repeat split.
    + contradiction.
Qed.

(** X3.  [POST /delete/{id}] on an id the table holds answers with a 303
    redirect to [/]; the rows left are exactly the old rows under another
    id, in their old order. *)
Theorem delete_expense_removes_only_the_addressed_row :
  forall (db : Session) (expense_id : Z),
  In expense_id (ids (table db)) ->
  let db' := snd (delete_expense expense_id db) in
  fst (delete_expense expense_id db) = Returns (RedirectResponse "/" 303)
  /\ (forall e, In e (table db') <->
                In e (table db) /\ id e <> expense_id)
  /\ ids (table db')
     = filter (fun j => negb (j =? expense_id)) (ids (table db)).
Proof.
  intros db i Hin db'.
  assert (Htab : table db' = filter (fun e => negb (has_id i e)) (table db))
    by apply delete_expense_table.
  split; [now apply delete_expense_held|].
  rewrite Htab. split; [|apply ids_without].
  intros e. rewrite filter_In. unfold has_id.
  destruct (Z.eqb_spec (id e) i) as [E|E]; simpl; split.
  - intros [_ H]. discriminate.
  - intros [_ H]. contradiction.
  - intros [H _]. now split.
  - intros [H _]. now split.
Qed.

(** X4.  The two delete routes do the same to the table and succeed on
    the same ids: [POST /delete/{id}] and [DELETE /api/expenses/{id}]
    leave the same table, and one raises exactly when the other does. *)
Theorem web_and_api_deletes_agree :
  forall (db : Session) (today : nat -> datetime.date) (expense_id : Z),
  table (snd (app today (POST_delete expense_id) db))
  = table (snd (app today (DELETE_api_expenses expense_id) db))
  /\ succeeded (fst (app today (POST_delete expense_id) db))
     = succeeded (fst (app today (DELETE_api_expenses expense_id) db)).
Proof.
  intros db today i. cbn [app].
  rewrite delete_expense_table, delete_expense_api_table.
  split; [reflexivity|].
  unfold delete_expense, delete_expense_api, bind.
  destruct (int64 i) eqn:Hr.
  - rewrite query_first_in_range by exact Hr.
    now destruct (find (has_id i) (table db)).
  - now rewrite query_first_out_of_range by exact Hr.
Qed.

(** *** Listing *)

Lemma validate_all_populated (t : list Expense) :
  forallb populated t = true ->
  exists l, validate_all t = Some l /\ Forall2 shows t l.
Proof.
  induction t as [|e t IH]; simpl; intros H.
  - exists []. split; [reflexivity|constructor].
  - apply andb_prop in H. destruct H as [He Ht].
    destruct (IH Ht) as [l [Hl Hs]]. rewrite Hl.
    unfold populated in He. unfold model_validate.
    destruct (description e) as [d|] eqn:Ed; [|discriminate].
    destruct (amount e) as [a|] eqn:Ea; [|discriminate].
    destruct (date e) as [dt|] eqn:Et; [|discriminate].
    exists (mkExpenseRead (id e) d a dt :: l).
    split; [reflexivity|].
    constructor; [|exact Hs]. unfold shows. simpl. repeat split; assumption.
Qed.

Lemma validate_all_null (t : list Expense) :
  forallb populated t = false -> validate_all t = None.
Proof.
  induction t as [|e t IH]; simpl; intros H; [discriminate|].
  apply andb_false_iff in H. destruct H as [He|Ht].
  - unfold populated in He. unfold model_validate.
    destruct (description e), (amount e), (date e);
      try discriminate; reflexivity.
  - rewrite (IH Ht). now destruct (model_validate e).
Qed.

(** X5.  On a table whose rows all have their three fields,
    [GET /api/expenses/] answers with one record per row, in the order of
    the rows, each with the id and the three values of its row; it lists
    the same ids as [GET /] and leaves the table as it was. *)
Theorem read_expenses_api_shows_every_row :
  forall (db : Session),
  forallb populated (table db) = true ->
  exists l : list ExpenseRead,
    fst (read_expenses_api db) = Returns (ExpenseRead_list_json l)
    /\ Forall2 shows (table db) l
    /\ listed (fst (read_expenses_api db)) = listed (fst (read_root db)).
Proof.
  intros db H.
  destruct (validate_all_populated _ H) as [l [Hl Hs]].
  exists l. run_handler. rewrite Hl. simpl.
  split; [reflexivity|]. split; [exact Hs|].
  now apply validate_all_ids.
Qed.

(** X6.  One row with a NULL description, amount or date makes
    [GET /api/expenses/] fail with a 500 for the whole list, whatever the
    other rows hold, while [GET /] still answers with its page. *)
Theorem read_expenses_api_fails_on_a_null_field :
  forall (db : Session),
  forallb populated (table db) = false ->
  fst (read_expenses_api db) = Raises 500 "Internal Server Error"
  /\ listed (fst (read_root db)) = ids (table db).
Proof.
  intros db H. run_handler.
  rewrite (validate_all_null _ H). split; reflexivity.
Qed.

(** *** How writes compose *)

Lemma filter_place_out_own (e : Expense) (t : list Expense) :
  ~ In (id e) (ids t) ->
  filter (fun x => negb (has_id (id e) x)) (place e t) = t.
Proof.
  intros Hf. rewrite filter_place_out.
  - now apply without_absent_id.
  - unfold has_id. now rewrite Z.eqb_refl.
Qed.

(** X8.  When the amount is finite, the column keeps it and the storage
    gives a key, creating an expense and then deleting the id that the
    create returned gives back the table as it was before the create. *)
Theorem create_then_delete_restores_the_table :
  forall (db : Session) (expense : ExpenseCreate) (s : float) (pk : Z),
  isfinite (new_amount expense) = true ->
  stored (new_amount expense) = Some s ->
  assigned db = Some pk ->
  exists r : ExpenseRead,
    fst (create_expense_api expense db) = Returns (ExpenseRead_json r)
    /\ fst (delete_expense_api (read_id r)
              (snd (create_expense_api expense db)))
       = Returns (detail_json "Expense deleted")
    /\ table (snd (delete_expense_api (read_id r)
                     (snd (create_expense_api expense db))))
       = table db.
Proof.
  intros db expense s pk _ Hs Hk.
  destruct (create_expense_api_assigned db expense pk Hk)
    as [e [Hid [_ [_ [_ [Htab Hans]]]]]].
  destruct (assigned_fresh _ _ Hk) as [_ Hf].
  rewrite Hs in Hans.
  exists (mkExpenseRead pk (new_description expense) s (new_date expense)).
  split; [exact Hans|]. cbn [read_id]. split.
  - apply delete_expense_api_held. rewrite Htab.
    apply in_ids_place. left. now symmetry.
  - rewrite delete_expense_api_table, Htab.
    rewrite <- Hid. apply filter_place_out_own. now rewrite Hid.
Qed.

Lemma assign_twice (pk : Z) d1 a1 t1 d2 a2 t2 (t : list Expense) :
  map (assign pk d2 a2 t2) (map (assign pk d1 a1 t1) t)
  = map (assign pk d2 a2 t2) t.
Proof.
  rewrite map_map. apply map_ext. intros e.
  unfold assign at 2. destruct (has_id pk e) eqn:E.
  - unfold assign, has_id in *. simpl. now rewrite E.
  - unfold assign. now rewrite E.
Qed.

(** X9.  The last update wins: two updates of the same id leave the table
    that the second alone would leave, so nothing of the first survives;
    an update repeated with the same values changes nothing more. *)
Theorem last_update_wins :
  forall (db : Session) (expense_id : Z) (first second : ExpenseUpdate),
  table (snd (update_expense_api expense_id second
                (snd (update_expense_api expense_id first db))))
  = table (snd (update_expense_api expense_id second db))
  /\ table (snd (update_expense_api expense_id first
                   (snd (update_expense_api expense_id first db))))
     = table (snd (update_expense_api expense_id first db)).
Proof.
  intros db i e1 e2.
  rewrite !update_expense_api_table. split; apply assign_twice.
Qed.

Lemma without_commutes (i j : Z) (t : list Expense) :
  filter (fun e => negb (has_id j e)) (filter (fun e => negb (has_id i e)) t)
  = filter (fun e => negb (has_id i e))
           (filter (fun e => negb (has_id j e)) t).
Proof.
  induction t as [|x t IH]; simpl; [reflexivity|].
  destruct (has_id i x) eqn:Ei, (has_id j x) eqn:Ej; simpl;
    rewrite ?Ei, ?Ej; simpl; now rewrite IH.
Qed.

(** X10.  Deletes commute: deleting two ids in either order leaves the
    same table, whether or not the table holds them. *)
Theorem deletes_commute :
  forall (db : Session) (i j : Z),
  table (snd (delete_expense_api j (snd (delete_expense_api i db))))
  = table (snd (delete_expense_api i (snd (delete_expense_api j db)))).
Proof.
  intros db i j. rewrite !delete_expense_api_table. apply without_commutes.
Qed.

(** *** Totals and writes *)

(** X12.  With the clock at one date, a create dated in another month or
    year leaves the answer of [GET /api/expenses/total] as it was. *)
Theorem create_outside_the_month_keeps_the_total :
  forall (db : Session) (expense : ExpenseCreate) (current : datetime.date),
  dated_in current (new_date expense) = false ->
  total_in (fst (total_expenses_api (fun _ => current)
                   (snd (create_expense_api expense db))))
  = total_in (fst (total_expenses_api (fun _ => current) db)).
Proof.
  intros db e current Hd. rewrite !total_expenses_api_answer.
  rewrite !where_current_month.
  destruct (assigned db) as [pk|] eqn:Hk.
  - destruct (create_expense_api_assigned db e pk Hk)
      as [x [_ [_ [_ [Ht [Htab _]]]]]].
    rewrite Htab. rewrite filter_place_out; [reflexivity|].
    unfold same_month. now rewrite Ht.
  - destruct (create_expense_api_full db e Hk) as [_ Htab].
    now rewrite Htab.
Qed.

Lemma filter_everything {A} (f : A -> bool) (l : list A) :
  forallb f l = true -> filter f l = l.
Proof.
  induction l as [|x l IH]; simpl; intros H; [reflexivity|].
  apply andb_prop in H. destruct H as [Hx Hl].
  rewrite Hx. f_equal. now apply IH.
Qed.

(** X13.  When every row is dated in the current month and year, the
    answer of [GET /api/expenses/total] is the total that [GET /]
    shows. *)
Theorem total_of_the_month_is_the_total_when_all_rows_are_current :
  forall (db : Session) (current : datetime.date),
  forallb (same_month current) (table db) = true ->
  total_in (fst (total_expenses_api (fun _ => current) db))
  = total_in (fst (read_root db)).
Proof.
  intros db current H. run_handler.
  rewrite where_current_month. now rewrite (filter_everything _ _ H).
Qed.

(** *** Counting rows *)

Lemma without_one (pk : Z) (t : list Expense) :
  NoDup (ids t) -> In pk (ids t) ->
  S (List.length (filter (fun e => negb (has_id pk e)) t)) = List.length t.
Proof.
  induction t as [|x t IH]; simpl; intros Hu Hin; [contradiction|].
  inversion Hu as [|? ? Hx Hu']; subst.
  unfold has_id at 1.
  destruct (Z.eqb_spec (id x) pk) as [E|E]; simpl.
  - f_equal. f_equal. apply without_absent_id. now rewrite <- E.
  - destruct Hin as [Hin|Hin]; [contradiction|].
    f_equal. now apply IH.
Qed.

(** X14.  A create makes the table one row longer when the storage gives
    a key and leaves it otherwise; an update of any id leaves its length;
    on a table with no two rows under one id, a delete of an id it holds
    makes it one row shorter. *)
Theorem writes_and_the_number_of_rows :
  forall (db : Session) (expense_id : Z) (expense : ExpenseCreate),
  List.length (table (snd (create_expense_api expense db)))
  = (match assigned db with
     | Some _ => S (List.length (table db))
     | None => List.length (table db)
     end)
  /\ List.length (table (snd (update_expense_api expense_id expense db)))
     = List.length (table db)
  /\ (NoDup (ids (table db)) ->
      In expense_id (ids (table db)) ->
      S (List.length (table (snd (delete_expense_api expense_id db))))
      = List.length (table db)).
Proof.
  intros db i e. split; [|split].
  - destruct (assigned db) as [pk|] eqn:Hk.
    + destruct (create_expense_api_assigned db e pk Hk)
        as [x [_ [_ [_ [_ [Htab _]]]]]].
      rewrite Htab. apply length_place.
    + destruct (create_expense_api_full db e Hk) as [_ Htab].
      now rewrite Htab.
  - rewrite update_expense_api_table. apply length_map.
  - intros Hu Hin. rewrite delete_expense_api_table. now apply without_one.
Qed.

(** *** Lookup *)

(** X16.  [GET /update/{id}] on an id the table holds renders the update
    form for a row of the table that has this id: the first such row in
    storage order. *)
Theorem update_expense_form_shows_a_held_row :
  forall (db : Session) (expense_id : Z),
  In expense_id (ids (table db)) ->
  exists e : Expense,
    fst (update_expense_form expense_id db)
    = Returns (TemplateResponse "update_expense.html" (update_values e))
    /\ In e (table db)
    /\ id e = expense_id
    /\ find (has_id expense_id) (table db) = Some e.
Proof.
  intros db i Hin.
  destruct (find_present _ _ Hin) as [e [He Hid]].
  exists e. rewrite update_expense_form_answer.
  rewrite (held_int64 _ _ Hin), He.
  split; [reflexivity|]. split; [|split; [exact Hid|reflexivity]].
  apply find_some in He. apply He.
Qed.

(** *** Exceptions *)

Lemma holds_find (t : list Expense) (pk : Z) :
  holds t pk = match find (has_id pk) t with Some _ => true | None => false end.
Proof.
  unfold holds. induction t as [|x t IH]; simpl; [reflexivity|].
  destruct (has_id pk x); simpl; [reflexivity|exact IH].
Qed.

(** X17.  Each of the five routes addressed to an id answers 404 exactly
    when the id is a 64-bit integer and the table holds no row under it
    (for [POST /update/{id}], on a form with a description); on any
    table, an id it holds is never answered with 404. *)
Theorem id_routes_answer_404_exactly_when_absent :
  forall (db : Session) (today : nat -> datetime.date) (expense_id : Z)
         (expense : ExpenseUpdate)
         (d : string) (a : float) (t : datetime.date),
  d <> "" ->
  not_found (fst (app today (GET_update expense_id) db))
  = negb (holds (table db) expense_id) && int64 expense_id
  /\ not_found (fst (app today (POST_update expense_id d a t) db))
     = negb (holds (table db) expense_id) && int64 expense_id
  /\ not_found (fst (app today (POST_delete expense_id) db))
     = negb (holds (table db) expense_id) && int64 expense_id
  /\ not_found (fst (app today (PUT_api_expenses expense_id expense) db))
     = negb (holds (table db) expense_id) && int64 expense_id
  /\ not_found (fst (app today (DELETE_api_expenses expense_id) db))
     = negb (holds (table db) expense_id) && int64 expense_id.
Proof.
  intros db today i e d a t Hd. cbn [app].
  rewrite (form_text_accepts _ _ Hd). rewrite holds_find.
  unfold update_expense_form, update_expense, delete_expense,
    update_expense_api, delete_expense_api, bind.
  destruct (int64 i) eqn:Hr.
  - rewrite query_first_in_range by exact Hr.
    destruct (find (has_id i) (table db)) as [x|] eqn:E; simpl.
    + destruct (find_has_id _ _ _ E) as [Hid _]. rewrite Hid.
      destruct (find_assigned i d a t _ _ E) as [x1 [Hx1 _]].
      destruct (find_assigned i (new_description e) (new_amount e)
                  (new_date e) _ _ E) as [x2 [Hx2 [Hi [Hde [Ha Ht]]]]].
      run_handler. rewrite Hx1, Hx2. simpl.
      unfold model_validate. rewrite Hde, Ha, Ht.
      destruct (stored (new_amount e)); repeat split.
    + repeat split.
  - rewrite query_first_out_of_range by exact Hr.
    rewrite andb_false_r. repeat split.
Qed.

(** X18.  A request that ends in an exception has written nothing, when
    the amount of its JSON body, if it has one, is finite and kept by the
    column: whatever the route and the table, when the outcome is a
    raised exception the table after the request is the table before
    it. *)
Theorem a_failed_request_leaves_the_table :
  forall (db : Session) (today : nat -> datetime.date) (r : request),
  amount_sent r = true ->
  succeeded (fst (app today r db)) = false ->
  table (snd (app today r db)) = table db.
Proof.
  intros db today r Hs.
  destruct r as [| |d a t|i|i d a t|i|e| | |i e|i];
    cbn [app amount_sent] in *; try reflexivity.
  - destruct d as [|c d']; [reflexivity|]. cbn [form_text].
    destruct (assigned db) as [pk|] eqn:Hk.
    + destruct (add_expense_assigned db (String c d') a t pk Hk)
        as [x [_ [_ [_ [_ [_ Hans]]]]]].
      rewrite Hans. discriminate.
    + intros _. apply (add_expense_full db (String c d') a t Hk).
  - intros _. unfold update_expense_form, bind. destruct (int64 i) eqn:Hr.
    + rewrite query_first_in_range by exact Hr.
      now destruct (find (has_id i) (table db)).
    + now rewrite query_first_out_of_range by exact Hr.
  - destruct d as [|c d']; [reflexivity|]. cbn [form_text].
    intros H. rewrite update_expense_table.
    apply assign_absent_id. intros Hin.
    rewrite update_expense_held in H by exact Hin. discriminate.
  - intros H. rewrite delete_expense_table.
    apply without_absent_id. intros Hin.
    rewrite delete_expense_held in H by exact Hin. discriminate.
  - apply andb_prop in Hs. destruct Hs as [Hs _]. unfold keeps in Hs.
    destruct (assigned db) as [pk|] eqn:Hk.
    + destruct (create_expense_api_assigned db e pk Hk)
        as [x [_ [_ [_ [_ [_ Hans]]]]]].
      rewrite Hans. destruct (stored (new_amount e)); discriminate.
    + intros _. apply (create_expense_api_full db e Hk).
  - intros _. run_handler. now destruct (validate_all (table db)).
  - apply andb_prop in Hs. destruct Hs as [Hs _]. unfold keeps in Hs.
    intros H. rewrite update_expense_api_table.
    apply assign_absent_id. intros Hin.
    rewrite update_expense_api_held in H by exact Hin.
    destruct (stored (new_amount e)); discriminate.
  - intros H. rewrite delete_expense_api_table.
    apply without_absent_id. intros Hin.
    rewrite delete_expense_api_held in H by exact Hin. discriminate.
Qed.

End ExpenseTracker.

(** ** IEEE doubles meet the assumption on totals

    The sum of two doubles is [-0.0] only when both are [-0.0]: two finite
    doubles that cancel give [+0.0], and a sum that is not zero is not
    rounded to a zero, because it is a multiple of the smallest positive
    double.  So a running total that starts at [+0.0] is never [-0.0]. *)

Section Rounding.

Variables prec emax : Z.

Lemma digits2_pos_bounds (m : positive) :
  2 ^ (Zpos (digits2_pos m) - 1) <= Zpos m < 2 ^ Zpos (digits2_pos m).
Proof.
  assert (step : forall d : positive,
             2 ^ Z.succ (Zpos d) = 2 * 2 ^ Zpos d
             /\ 2 ^ Zpos d = 2 * 2 ^ (Zpos d - 1)).
  { intros d. split.
    - apply Z.pow_succ_r. lia.
    - rewrite <- Z.pow_succ_r by lia. f_equal. lia. }
  induction m as [m IH|m IH|]; simpl digits2_pos.
  - rewrite Pos2Z.inj_succ. destruct (step (digits2_pos m)) as [E1 E2].
    replace (Z.succ (Zpos (digits2_pos m)) - 1) with (Zpos (digits2_pos m))
      by lia.
    lia.
  - rewrite Pos2Z.inj_succ. destruct (step (digits2_pos m)) as [E1 E2].
    replace (Z.succ (Zpos (digits2_pos m)) - 1) with (Zpos (digits2_pos m))
      by lia.
    lia.
  - simpl. lia.
Qed.

Lemma shr_1_halves (mrs : shr_record) :
  0 <= shr_m mrs -> shr_m (shr_1 mrs) = shr_m mrs / 2.
Proof.
  destruct mrs as [m r s]. cbn [shr_m]. intros H.
  destruct m as [|[p|p|]|p]; cbn [shr_1 shr_m]; try lia.
  - reflexivity.
  - apply Z.div_unique with (r := 1); lia.
  - apply Z.div_unique with (r := 0); lia.
  - reflexivity.
Qed.

Lemma iter_shr_1_divides (p : positive) :
  forall mrs, 0 <= shr_m mrs ->
  shr_m (iter_pos shr_1 p mrs) = shr_m mrs / 2 ^ Zpos p.
Proof.
  assert (pow_pos : forall q : positive, 0 < 2 ^ Zpos q).
  { intros q. apply Z.pow_pos_nonneg; lia. }
  induction p as [p IH|p IH|]; intros mrs H; simpl iter_pos.
  - assert (H1 : 0 <= shr_m (shr_1 mrs)).
    { rewrite shr_1_halves by exact H. apply Z.div_pos; lia. }
    assert (H2 : 0 <= shr_m (iter_pos shr_1 p (shr_1 mrs))).
    { rewrite IH by exact H1. apply Z.div_pos; [lia|apply pow_pos]. }
    rewrite IH by exact H2. rewrite IH by exact H1.
    rewrite shr_1_halves by exact H.
    pose proof (pow_pos p) as Hp.
    rewrite !Z.div_div by lia.
    f_equal.
    assert (E : 2 ^ Zpos p~1 = 2 * (2 ^ Zpos p * 2 ^ Zpos p)).
    { rewrite <- Z.pow_add_r, <- Z.pow_succ_r by lia. f_equal. lia. }
    rewrite E. lia.
  - assert (H2 : 0 <= shr_m (iter_pos shr_1 p mrs)).
    { rewrite IH by exact H. apply Z.div_pos; [lia|apply pow_pos]. }
    rewrite IH by exact H2. rewrite IH by exact H.
    pose proof (pow_pos p) as Hp.
    rewrite !Z.div_div by lia.
    f_equal.
    assert (E : 2 ^ Zpos p~0 = 2 ^ Zpos p * 2 ^ Zpos p).
    { rewrite <- Z.pow_add_r by lia. f_equal. lia. }
    rewrite E. lia.
  - rewrite shr_1_halves by exact H. reflexivity.
Qed.

Lemma shr_record_of_loc_m (m : Z) (l : location) :
  shr_m (shr_record_of_loc m l) = m.
Proof. destruct l as [|[]]; reflexivity. Qed.

Hypothesis prec_pos : 0 < prec.

(** Shifting a positive mantissa to its canonical exponent leaves it
    positive, when the exponent is not below the smallest one. *)
Lemma shr_fexp_positive (m e : Z) (l : location) :
  0 < m -> SpecFloat.emin prec emax <= e ->
  0 < shr_m (fst (shr_fexp prec emax m e l))
  /\ SpecFloat.emin prec emax <= snd (shr_fexp prec emax m e l).
Proof.
  intros Hm He. unfold shr_fexp, shr.
  destruct (fexp prec emax (Zdigits2 m + e) - e) as [|p|p] eqn:En; simpl;
    rewrite ?shr_record_of_loc_m; try (split; lia).
  destruct m as [|m|m]; try lia. simpl Zdigits2 in En.
  assert (Hn : Zpos p = Zpos (digits2_pos m) - prec).
  { unfold fexp in En. lia. }
  split; [|lia].
  rewrite iter_shr_1_divides by (rewrite shr_record_of_loc_m; lia).
  rewrite shr_record_of_loc_m.
  apply Z.div_str_pos. split; [apply Z.pow_pos_nonneg; lia|].
  apply Z.le_trans with (2 ^ (Zpos (digits2_pos m) - 1)).
  - apply Z.pow_le_mono_r; lia.
  - apply digits2_pos_bounds.
Qed.

Lemma round_nearest_even_positive (m : Z) (l : location) :
  0 < m -> 0 < round_nearest_even m l.
Proof.
  intros H. unfold round_nearest_even.
  destruct l as [|[]]; try lia. destruct (Z.even m); lia.
Qed.

Lemma binary_round_aux_not_zero (sx : bool) (m e : Z) (l : location)
      (s : bool) :
  0 < m -> SpecFloat.emin prec emax <= e ->
  binary_round_aux prec emax sx m e l <> S754_zero s.
Proof.
  intros Hm He. unfold binary_round_aux.
  pose proof (shr_fexp_positive m e l Hm He) as [H1 H2].
  destruct (shr_fexp prec emax m e l) as [mrs' e']. simpl in H1, H2.
  pose proof (shr_fexp_positive _ e' loc_Exact
                (round_nearest_even_positive _ (loc_of_shr_record mrs') H1)
                H2) as [H3 H4].
  destruct (shr_fexp prec emax _ e' loc_Exact) as [mrs'' e''].
  simpl in H3, H4.
  destruct (shr_m mrs''); try lia.
  destruct (e'' <=? emax - prec); discriminate.
Qed.

Lemma binary_round_not_zero (sx : bool) (m : positive) (e : Z) (s : bool) :
  SpecFloat.emin prec emax <= e ->
  binary_round prec emax sx m e <> S754_zero s.
Proof.
  intros He. unfold binary_round, shl_align.
  assert (Hf : SpecFloat.emin prec emax
               <= fexp prec emax (Zpos (digits2_pos m) + e)).
  { unfold fexp. lia. }
  destruct (fexp prec emax (Zpos (digits2_pos m) + e) - e);
    apply binary_round_aux_not_zero; lia.
Qed.

Lemma valid_finite_exponent (s : bool) (m : positive) (e : Z) :
  SpecFloat.valid_binary prec emax (S754_finite s m e) = true ->
  SpecFloat.emin prec emax <= e.
Proof.
  simpl. unfold bounded, canonical_mantissa. intros H.
  apply andb_prop in H. destruct H as [H _]. apply Z.eqb_eq in H.
  unfold fexp in H. lia.
Qed.

Lemma SFadd_not_negative_zero (x y : spec_float) :
  SpecFloat.valid_binary prec emax x = true ->
  SpecFloat.valid_binary prec emax y = true ->
  x <> S754_zero true -> SFadd prec emax x y <> S754_zero true.
Proof.
  intros Vx Vy Hx.
  destruct x as [sx|sx| |sx mx ex], y as [sy|sy| |sy my ey]; simpl;
    try discriminate; try (destruct sx, sy; congruence).
  apply valid_finite_exponent in Vx. apply valid_finite_exponent in Vy.
  unfold binary_normalize.
  destruct (_ + _); try discriminate; apply binary_round_not_zero; lia.
Qed.

End Rounding.

Lemma add_not_negative_zero (x y : PrimFloat.float) :
  Prim2SF x <> S754_zero true -> Prim2SF (x + y) <> S754_zero true.
Proof.
  intros H. rewrite FloatAxioms.add_spec. apply SFadd_not_negative_zero.
  - reflexivity.
  - apply Prim2SF_valid.
  - apply Prim2SF_valid.
  - exact H.
Qed.

Lemma total_from_not_negative_zero (xs : list PrimFloat.float) :
  forall acc, Prim2SF acc <> S754_zero true ->
  Prim2SF (fold_left PrimFloat.add xs acc) <> S754_zero true.
Proof.
  induction xs as [|x xs IH]; intros acc H; simpl; [exact H|].
  apply IH. now apply add_not_negative_zero.
Qed.

Lemma falsy_float_is_a_zero (x : PrimFloat.float) :
  IEEE.truth x = false -> exists s, Prim2SF x = S754_zero s.
Proof.
  unfold IEEE.truth. rewrite FloatAxioms.eqb_spec. intros H.
  apply negb_false_iff in H.
  unfold SFeqb in H. change (Prim2SF 0) with (S754_zero false) in H.
  destruct (Prim2SF x) as [s|s| |s m e]; simpl in H;
    try discriminate; try (destruct s; discriminate).
  now exists s.
Qed.

(** The assumption [falsy_total] at IEEE doubles. *)
Lemma ieee_falsy_total :
  forall xs : list PrimFloat.float,
  IEEE.truth (total_of 0%float PrimFloat.add xs) = false ->
  total_of 0%float PrimFloat.add xs = 0%float.
Proof.
  intros xs H. apply falsy_float_is_a_zero in H. destruct H as [s Hs].
  apply Prim2SF_inj. rewrite Hs. change (Prim2SF 0) with (S754_zero false).
  destruct s; [|reflexivity].
  exfalso. revert Hs. unfold total_of.
  apply total_from_not_negative_zero. discriminate.
Qed.

(** ** The handlers run on doubles over SQLite *)

(** A clock, a draw of the engine's random search, and two tables. *)
Definition today : datetime.date := datetime.mkdate 2026 11 3.

Definition clock (n : nat) : datetime.date := today.

Definition draws (n : nat) : Z := 4.

Definition one_row : Session :=
  mkSession
    [ mkExpense 1 (Some "Test Expense") (Some 100%float) (Some today)
                eq_refl ] [].

Definition three_rows : Session :=
  mkSession
    [ mkExpense 1 (Some "Rent") (Some 900%float)
                (Some (datetime.mkdate 2026 11 1)) eq_refl;
      mkExpense 2 (Some "Books") (Some 35%float)
                (Some (datetime.mkdate 2026 10 31)) eq_refl;
      mkExpense 3 (Some "Rent") (Some 850%float)
                (Some (datetime.mkdate 2025 11 1)) eq_refl ] [].

(** The scenario of the test suite: two expenses of 100.0 and 200.0 dated
    today, then [GET /api/expenses/total] answers 300.0. *)
Example two_expenses_dated_today_total_300 :
  fst (total_expenses_api 0%float PrimFloat.add IEEE.truth IEEE.isnan
         (fun _ => today)
         (serve 0%float PrimFloat.add IEEE.truth IEEE.isnan
                SQLite.stored draws
            [ (clock,
               POST_api_expenses
                 (mkExpenseCreate "Test Expense" 100%float today));
              (clock,
               POST_api_expenses
                 (mkExpenseCreate "Another Test Expense" 200%float today)) ]
            new_database))
  = Returns (float_json 300%float).
Proof. reflexivity. Qed.

(** The scenario of the web form: [POST /add] answers with a redirect to
    [/], and [GET /] then shows the new expense in the list. *)
Example post_add_redirects_and_index_lists_it :
  fst (app 0%float PrimFloat.add IEEE.truth IEEE.isnan SQLite.stored draws
           (fun _ => today) (POST_add "Coffee" 4%float today) new_database)
  = Returns (RedirectResponse "/" 303)
  /\ fst (read_root 0%float PrimFloat.add IEEE.truth IEEE.isnan
            (snd (app 0%float PrimFloat.add IEEE.truth IEEE.isnan
                      SQLite.stored draws (fun _ => today)
                      (POST_add "Coffee" 4%float today) new_database)))
     = Returns (TemplateResponse "index.html"
                  (index_values
                     [ mkExpense 1 (Some "Coffee") (Some 4%float)
                                 (Some today) eq_refl ]
                     4%float)).
Proof. split; reflexivity. Qed.

(** The total is a sum of doubles: 0.1 and 0.2 (the doubles nearest to
    them) add up to 0.30000000000000004. *)
Example total_is_a_sum_of_doubles :
  total_in
    (fst (read_root 0%float PrimFloat.add IEEE.truth IEEE.isnan
            (mkSession
               [ mkExpense 1 (Some "Pen") (Some 0x1.999999999999ap-4%float)
                           (Some today) eq_refl;
                 mkExpense 2 (Some "Ink") (Some 0x1.999999999999ap-3%float)
                           (Some today) eq_refl ] [])))
  = Some 0x1.3333333333334p-2%float.
Proof. reflexivity. Qed.

(** When the year turns between the two readings of the clock, the month
    of the old date is paired with the year of the new one. *)
Example total_expenses_api_across_new_year :
  fst (total_expenses_api 0%float PrimFloat.add IEEE.truth IEEE.isnan
         (fun n => match n with
                   | O => datetime.mkdate 2025 12 31
                   | _ => datetime.mkdate 2026 1 1
                   end)
         (mkSession
            [ mkExpense 1 (Some "December") (Some 40%float)
                        (Some (datetime.mkdate 2025 12 30)) eq_refl;
              mkExpense 2 (Some "January") (Some 2%float)
                        (Some (datetime.mkdate 2026 1 1)) eq_refl;
              mkExpense 3 (Some "Next December") (Some 7%float)
                        (Some (datetime.mkdate 2026 12 24)) eq_refl ] []))
  = Returns (float_json 7%float).
Proof. reflexivity. Qed.

(** What the column keeps: NaN is NULL, the negative zero is [0.0], an
    infinity is itself. *)
Example stored_floats :
  SQLite.stored nan = None
  /\ SQLite.stored neg_zero = Some 0%float
  /\ SQLite.stored infinity = Some infinity
  /\ SQLite.stored 100%float = Some 100%float.
Proof. repeat split. Qed.

(** On a table that holds the largest key, the new row gets the key that
    the engine draws and is placed by that key, before the rows with
    larger keys. *)
Example create_at_the_largest_key :
  table (snd (create_expense_api SQLite.stored (fun _ => 3)
                (mkExpenseCreate "Rent" 5%float today)
                (mkSession
                   [ mkExpense 4 (Some "Old") (Some 1%float) (Some today)
                               eq_refl;
                     mkExpense top_rowid (Some "Older") (Some 2%float)
                               (Some today) eq_refl ] [])))
  = [ mkExpense 3 (Some "Rent") (Some 5%float) (Some today) eq_refl;
      mkExpense 4 (Some "Old") (Some 1%float) (Some today) eq_refl;
      mkExpense top_rowid (Some "Older") (Some 2%float) (Some today)
                eq_refl ].
Proof. reflexivity. Qed.

(** A form with an empty description is answered 422 and nothing is
    stored; a JSON body with an empty description is stored. *)
Example empty_description :
  app 0%float PrimFloat.add IEEE.truth IEEE.isnan SQLite.stored draws
      (fun _ => today) (POST_add "" 4%float today) new_database
  = (Raises 422 "Unprocessable Entity", new_database)
  /\ ids (table (snd (app 0%float PrimFloat.add IEEE.truth IEEE.isnan
                          SQLite.stored draws (fun _ => today)
                          (POST_api_expenses
                             (mkExpenseCreate "" 4%float today))
                          new_database)))
     = [1].
Proof. split; reflexivity. Qed.

Definition two_rows : Session :=
  mkSession
    [ mkExpense 1 (Some "Rent") (Some 900%float)
                (Some (datetime.mkdate 2026 11 1)) eq_refl;
      mkExpense 2 (Some "Books") (Some 35%float)
                (Some (datetime.mkdate 2026 10 31)) eq_refl ] [].

(** The largest key plus one: an integer that is not a key. *)
Definition beyond_top : Z := 9223372036854775808.

(** ** Where the claims as stated fail *)

(** C1 as stated fails at the amount NaN: the row is stored with a NULL
    amount and no record is returned; and at the negative zero the record
    carries [0.0], another float. *)
Lemma create_expense_api_at_nan_and_negative_zero :
  fst (create_expense_api SQLite.stored draws
         (mkExpenseCreate "Rent" nan today) new_database)
  = Raises 500 "Internal Server Error"
  /\ table (snd (create_expense_api SQLite.stored draws
                   (mkExpenseCreate "Rent" nan today) new_database))
     = [ mkExpense 1 (Some "Rent") None (Some today) eq_refl ]
  /\ fst (create_expense_api SQLite.stored draws
            (mkExpenseCreate "Rent" neg_zero today) new_database)
     = Returns (ExpenseRead_json (mkExpenseRead 1 "Rent" 0%float today))
  /\ 0%float <> neg_zero.
Proof.
  repeat split.
  intros H. apply (f_equal Prim2SF) in H. discriminate H.
Qed.

(** C2 as stated fails after creates of the two infinities: the sum of
    the two amounts is NaN, and the page shows [0.0]. *)
Lemma sum_all_after_opposite_infinities :
  total_in
    (fst (read_root 0%float PrimFloat.add IEEE.truth IEEE.isnan
            (fst (play SQLite.stored draws
                    [ create (mkExpenseCreate "Gain" infinity today);
                      create (mkExpenseCreate "Loss" neg_infinity today) ]
                    new_database []))))
  = Some 0%float
  /\ total_of 0%float PrimFloat.add [infinity; neg_infinity] = nan
  /\ nan <> 0%float.
Proof.
  repeat split.
  intros H. apply (f_equal Prim2SF) in H. discriminate H.
Qed.

(** C3 as stated fails on two rows of the month that hold the two
    infinities: their sum is NaN, and the route answers [0.0]. *)
Lemma total_expenses_api_of_opposite_infinities :
  fst (total_expenses_api 0%float PrimFloat.add IEEE.truth IEEE.isnan
         (fun _ => today)
         (mkSession
            [ mkExpense 1 (Some "Gain") (Some infinity) (Some today) eq_refl;
              mkExpense 2 (Some "Loss") (Some neg_infinity) (Some today)
                        eq_refl ] []))
  = Returns (float_json 0%float)
  /\ total_of 0%float PrimFloat.add [infinity; neg_infinity] = nan
  /\ nan <> 0%float.
Proof.
  repeat split.
  intros H. apply (f_equal Prim2SF) in H. discriminate H.
Qed.

(** C4 as stated fails at the amount NaN: [PUT /api/expenses/1] on a
    table that holds id 1 is answered 500, and [GET /update/1] then shows
    the row without an amount. *)
Lemma update_expense_api_at_nan :
  fst (update_expense_api SQLite.stored 1
         (mkExpenseCreate "Updated Test Expense" nan today) one_row)
  = Raises 500 "Internal Server Error"
  /\ fst (update_expense_form 1
            (snd (update_expense_api SQLite.stored 1
                    (mkExpenseCreate "Updated Test Expense" nan today)
                    one_row)))
     = Returns (TemplateResponse "update_expense.html"
                  (update_values
                     (mkExpense 1 (Some "Updated Test Expense") None
                                (Some today) eq_refl))).
Proof. split; reflexivity. Qed.

(** C5 as stated fails at an id outside the 64-bit integers: no row has
    it, and both update routes answer 500, not 404. *)
Lemma update_of_an_id_beyond_the_keys :
  ~ In beyond_top (ids (table (@new_database PrimFloat.float)))
  /\ fst (update_expense_api SQLite.stored beyond_top
            (mkExpenseCreate "Rent" 900%float today) new_database)
     = Raises 500 "Internal Server Error"
  /\ fst (update_expense SQLite.stored beyond_top "Rent" 900%float today
            new_database)
     = Raises 500 "Internal Server Error".
Proof.
  split; [intros []|]. split; reflexivity.
Qed.

(** C8 as stated fails after [POST /add] with the amount NaN on a new
    database: the request is answered with the redirect and leaves a row
    without an amount. *)
Lemma add_expense_at_nan_leaves_a_null_amount :
  fst (app 0%float PrimFloat.add IEEE.truth IEEE.isnan SQLite.stored draws
           (fun _ => today) (POST_add "Rent" nan today) new_database)
  = Returns (RedirectResponse "/" 303)
  /\ table (serve 0%float PrimFloat.add IEEE.truth IEEE.isnan
                  SQLite.stored draws
                  [ (clock, POST_add "Rent" nan today) ]
                  new_database)
     = [ mkExpense 1 (Some "Rent") None (Some today) eq_refl ]
  /\ ~ well_formed
         (table (serve 0%float PrimFloat.add IEEE.truth IEEE.isnan
                       SQLite.stored draws
                       [ (clock, POST_add "Rent" nan today) ]
                       new_database)).
Proof.
  split; [reflexivity|]. split; [reflexivity|].
  intros [_ H]. inversion H as [|x l Hx Hl]. discriminate Hx.
Qed.

(** C10 as stated fails at an id outside the 64-bit integers: no row has
    it, and both delete routes answer 500, not 404. *)
Lemma delete_of_an_id_beyond_the_keys :
  ~ In beyond_top (ids (table (@new_database PrimFloat.float)))
  /\ fst (delete_expense_api beyond_top (@new_database PrimFloat.float))
     = Raises 500 "Internal Server Error"
  /\ fst (delete_expense beyond_top (@new_database PrimFloat.float))
     = Raises 500 "Internal Server Error".
Proof.
  split; [intros []|]. split; reflexivity.
Qed.

(** ** The theorems at concrete inputs *)

(** C1 at a table that holds id 1: the storage assigns a key, and a
    create of 200.0 returns id 2. *)
Lemma create_expense_api_returns_kept_input_under_fresh_id_witness :
  IEEE.isfinite 200%float = true
  /\ SQLite.stored 200%float = Some 200%float
  /\ assigned draws one_row = Some 2
  /\ exists r : ExpenseRead,
       fst (create_expense_api SQLite.stored draws
              (mkExpenseCreate "Another Test Expense" 200%float today)
              one_row)
       = Returns (ExpenseRead_json r)
       /\ read_id r = 2
       /\ read_amount r = 200%float
       /\ ~ In (read_id r) (ids (table one_row)).
Proof.
  split; [reflexivity|]. split; [reflexivity|]. split; [reflexivity|].
  destruct (create_expense_api_returns_kept_input_under_fresh_id
              IEEE.isfinite SQLite.stored draws one_row
              (mkExpenseCreate "Another Test Expense" 200%float today)
              200%float eq_refl eq_refl)
    as [_ Hcreate].
  destruct (Hcreate 2 eq_refl)
    as [r [e [Hans [Hid [_ [Ha [_ [Hfresh _]]]]]]]].
  exists r. repeat split; assumption.
Defined.

(** C2: 100.0 and 200.0 are created and the first is deleted; the index
    page shows the one row left and the total 200.0. *)
Lemma sum_all_is_the_sum_of_live_amounts_witness :
  (forall xs : list PrimFloat.float,
      IEEE.truth (total_of 0%float PrimFloat.add xs) = false ->
      total_of 0%float PrimFloat.add xs = 0%float)
  /\ Z.of_nat (List.length
                 [ create (mkExpenseCreate "Test Expense" 100%float today);
                   create (mkExpenseCreate "Another Test Expense"
                             200%float today);
                   delete 1 ]) < top_rowid
  /\ fst (read_root 0%float PrimFloat.add IEEE.truth IEEE.isnan
            (fst (play SQLite.stored draws
                    [ create (mkExpenseCreate "Test Expense" 100%float
                                today);
                      create (mkExpenseCreate "Another Test Expense"
                                200%float today);
                      delete 1 ]
                    new_database [])))
     = Returns (TemplateResponse "index.html"
                  (index_values
                     [ mkExpense 2 (Some "Another Test Expense")
                                 (Some 200%float) (Some today) eq_refl ]
                     200%float)).
Proof.
  split; [exact ieee_falsy_total|]. split; [reflexivity|].
  exact (proj1 (sum_all_is_the_sum_of_live_amounts
                  0%float PrimFloat.add IEEE.truth IEEE.isnan
                  SQLite.stored draws ieee_falsy_total
                  [ create (mkExpenseCreate "Test Expense" 100%float today);
                    create (mkExpenseCreate "Another Test Expense" 200%float
                              today);
                    delete 1 ]
                  eq_refl)).
Defined.

(** C3: of three rows, one is dated in November 2026, one in October
    2026 and one in November 2025; on 3 November 2026 the total is the
    amount of the first. *)
Lemma total_expenses_api_sums_the_current_month_witness :
  (forall xs : list PrimFloat.float,
      IEEE.truth (total_of 0%float PrimFloat.add xs) = false ->
      total_of 0%float PrimFloat.add xs = 0%float)
  /\ IEEE.isfinite 900%float = true
  /\ fst (total_expenses_api 0%float PrimFloat.add IEEE.truth IEEE.isnan
            (fun _ => today) three_rows)
     = Returns (float_json 900%float).
Proof.
  split; [exact ieee_falsy_total|]. split; [reflexivity|].
  exact (proj1 (total_expenses_api_sums_the_current_month
                  0%float PrimFloat.add IEEE.truth IEEE.isnan IEEE.isfinite
                  ieee_falsy_total three_rows today)
               eq_refl).
Defined.

(** C4: on a table that holds id 1, a create of 200.0 is shown under
    id 2 with its values, and an update of id 1 is shown with exactly
    the new values. *)
Lemma create_and_update_round_trip_witness :
  IEEE.isfinite 200%float = true
  /\ SQLite.stored 200%float = Some 200%float
  /\ assigned draws one_row = Some 2
  /\ IEEE.isfinite 150%float = true
  /\ SQLite.stored 150%float = Some 150%float
  /\ In 1 (ids (table one_row))
  /\ fst (update_expense_form 2
            (snd (create_expense_api SQLite.stored draws
                    (mkExpenseCreate "Another Test Expense" 200%float today)
                    one_row)))
     = Returns (TemplateResponse "update_expense.html"
                  (update_values
                     (mkExpense 2 (Some "Another Test Expense")
                                (Some 200%float) (Some today) eq_refl)))
  /\ exists e' : Expense,
       fst (update_expense_form 1
              (snd (update_expense_api SQLite.stored 1
                      (mkExpenseCreate "Updated Test Expense" 150%float
                                       (datetime.mkdate 2026 11 4))
                      one_row)))
       = Returns (TemplateResponse "update_expense.html" (update_values e'))
       /\ description e' = Some "Updated Test Expense"
       /\ amount e' = Some 150%float
       /\ date e' = Some (datetime.mkdate 2026 11 4).
Proof.
  assert (Hin : In 1 (ids (table one_row))) by (left; reflexivity).
  repeat (split; [first [reflexivity | exact Hin]|]).
  destruct (create_and_update_round_trip
              IEEE.isfinite SQLite.stored draws one_row
              (mkExpenseCreate "Another Test Expense" 200%float today)
              200%float 2 1
              (mkExpenseCreate "Updated Test Expense" 150%float
                               (datetime.mkdate 2026 11 4))
              150%float eq_refl eq_refl eq_refl eq_refl eq_refl)
    as [_ Hupdate].
  destruct (Hupdate Hin) as [e' [_ [Hget [_ [Hd [Ha Ht]]]]]].
  exists e'. repeat split; assumption.
Defined.

(** C5: id 7 is not in the table; both update routes answer 404 and the
    row is as it was. *)
Lemma update_of_absent_id_is_an_error_witness :
  ~ In 7 (ids (table one_row))
  /\ "Updated Test Expense" <> ""
  /\ fst (app 0%float PrimFloat.add IEEE.truth IEEE.isnan SQLite.stored
              draws (fun _ => today)
              (PUT_api_expenses 7
                 (mkExpenseCreate "Updated Test Expense" 150%float today))
              one_row)
     = Raises 404 "Expense not found"
  /\ fst (app 0%float PrimFloat.add IEEE.truth IEEE.isnan SQLite.stored
              draws (fun _ => today)
              (POST_update 7 "Updated Test Expense" 150%float today)
              one_row)
     = Raises 404 "Expense not found"
  /\ table (snd (app 0%float PrimFloat.add IEEE.truth IEEE.isnan
                     SQLite.stored draws (fun _ => today)
                     (POST_update 7 "Updated Test Expense" 150%float today)
                     one_row))
     = table one_row.
Proof.
  assert (Habs : ~ In 7 (ids (table one_row))).
  { intros [H|[]]. discriminate H. }
  assert (Hd : "Updated Test Expense" <> "") by discriminate.
  split; [exact Habs|]. split; [exact Hd|].
  destruct (update_of_absent_id_is_an_error
              0%float PrimFloat.add IEEE.truth IEEE.isnan SQLite.stored
              draws one_row (fun _ => today) 7
              (mkExpenseCreate "Updated Test Expense" 150%float today)
              "Updated Test Expense" 150%float today Habs Hd)
    as [Hapi [_ [Hweb Htab]]].
  split; [exact Hapi|]. split; [exact Hweb|exact Htab].
Defined.

(** C6: id 1 is deleted from a table that holds ids 1 and 2;
    [GET /api/expenses/] then does not list it and a second delete is
    answered 404. *)
Lemma deleted_id_is_gone_witness :
  In 1 (ids (table two_rows))
  /\ fst (delete_expense_api 1 two_rows)
     = Returns (detail_json "Expense deleted")
  /\ ~ In 1 (listed (fst (read_expenses_api
                            (snd (delete_expense_api 1 two_rows)))))
  /\ fst (delete_expense_api 1 (snd (delete_expense_api 1 two_rows)))
     = Raises 404 "Expense not found".
Proof.
  assert (H : In 1 (ids (table two_rows))) by (left; reflexivity).
  split; [exact H|].
  destruct (deleted_id_is_gone 0%float PrimFloat.add IEEE.truth IEEE.isnan
              two_rows 1 H)
    as [Hans [_ [Hlist [_ [_ Hagain]]]]].
  split; [exact Hans|]. split; [exact Hlist|exact Hagain].
Defined.

(** C8: a create, an update and a delete are served on a new database;
    no request writes NaN, and the table keeps distinct ids and populated
    rows. *)
Lemma served_table_stays_keyed_witness :
  keyed (table (@new_database PrimFloat.float))
  /\ well_formed (table (@new_database PrimFloat.float))
  /\ forallb (fun q => amount_kept SQLite.stored (snd q))
       [ (clock,
          POST_api_expenses (mkExpenseCreate "Rent" 900%float today));
         (clock, POST_add "Books" 35%float today);
         (clock,
          PUT_api_expenses 1 (mkExpenseCreate "Rent" 950%float today));
         (clock, DELETE_api_expenses 2) ] = true
  /\ well_formed
       (table (serve 0%float PrimFloat.add IEEE.truth IEEE.isnan
                     SQLite.stored draws
                 [ (clock,
                    POST_api_expenses
                      (mkExpenseCreate "Rent" 900%float today));
                   (clock, POST_add "Books" 35%float today);
                   (clock,
                    PUT_api_expenses 1
                      (mkExpenseCreate "Rent" 950%float today));
                   (clock, DELETE_api_expenses 2) ]
                 new_database)).
Proof.
  assert (Hk : keyed (table (@new_database PrimFloat.float)))
    by (split; constructor).
  assert (Hw : well_formed (table (@new_database PrimFloat.float)))
    by (split; constructor).
  split; [exact Hk|]. split; [exact Hw|]. split; [reflexivity|].
  exact (proj2 (served_table_stays_keyed
                  0%float PrimFloat.add IEEE.truth IEEE.isnan
                  SQLite.stored draws
                  [ (clock,
                     POST_api_expenses
                       (mkExpenseCreate "Rent" 900%float today));
                    (clock, POST_add "Books" 35%float today);
                    (clock,
                     PUT_api_expenses 1
                       (mkExpenseCreate "Rent" 950%float today));
                    (clock, DELETE_api_expenses 2) ]
                  new_database)
               eq_refl Hw).
Defined.

(** C10: id 7 is not in the table; both delete routes answer 404 and the
    row is as it was. *)
Lemma delete_of_absent_id_is_an_error_witness :
  ~ In 7 (ids (table one_row))
  /\ fst (delete_expense_api 7 one_row) = Raises 404 "Expense not found"
  /\ fst (delete_expense 7 one_row) = Raises 404 "Expense not found"
  /\ table (snd (delete_expense_api 7 one_row)) = table one_row.
Proof.
  assert (Habs : ~ In 7 (ids (table one_row))).
  { intros [H|[]]. discriminate H. }
  split; [exact Habs|].
  destruct (delete_of_absent_id_is_an_error one_row 7 Habs)
    as [Hapi [Htab [Hweb _]]].
  split; [exact Hapi|]. split; [exact Hweb|exact Htab].
Defined.

(** X1: [POST /add] on a table that holds id 1 appends a row under
    id 2. *)
Lemma add_expense_appends_one_row_witness :
  "Coffee" <> ""
  /\ below_top (table one_row) = true
  /\ exists e : Expense,
       table (snd (app 0%float PrimFloat.add IEEE.truth IEEE.isnan
                       SQLite.stored draws clock
                       (POST_add "Coffee" 4%float today) one_row))
       = table one_row ++ [e]
       /\ amount e = Some 4%float
       /\ listed (fst (read_root 0%float PrimFloat.add IEEE.truth IEEE.isnan
                         (snd (app 0%float PrimFloat.add IEEE.truth
                                   IEEE.isnan SQLite.stored draws clock
                                   (POST_add "Coffee" 4%float today)
                                   one_row))))
          = ids (table one_row) ++ [id e].
Proof.
  assert (Hd : "Coffee" <> "") by discriminate.
  split; [exact Hd|]. split; [reflexivity|].
  destruct (add_expense_appends_one_row
              0%float PrimFloat.add IEEE.truth IEEE.isnan SQLite.stored
              draws one_row clock "Coffee" 4%float today Hd eq_refl)
    as [e [_ [_ [Ha [_ [_ [Htab Hlist]]]]]]].
  exists e. split; [exact Htab|]. split; [exact Ha|exact Hlist].
Defined.

(** X2: the form update of id 2 in a table that holds ids 1 and 2 is
    answered with the redirect and leaves the ids as they were. *)
Lemma update_expense_replaces_only_the_addressed_row_witness :
  "Novels" <> ""
  /\ In 2 (ids (table two_rows))
  /\ fst (app 0%float PrimFloat.add IEEE.truth IEEE.isnan SQLite.stored
              draws clock (POST_update 2 "Novels" 40%float today) two_rows)
     = Returns (RedirectResponse "/" 303)
  /\ ids (table (snd (app 0%float PrimFloat.add IEEE.truth IEEE.isnan
                          SQLite.stored draws clock
                          (POST_update 2 "Novels" 40%float today)
                          two_rows)))
     = ids (table two_rows).
Proof.
  assert (Hd : "Novels" <> "") by discriminate.
  assert (H : In 2 (ids (table two_rows))) by (right; left; reflexivity).
  split; [exact Hd|]. split; [exact H|].
  destruct (update_expense_replaces_only_the_addressed_row
              0%float PrimFloat.add IEEE.truth IEEE.isnan SQLite.stored
              draws two_rows clock 2 "Novels" 40%float today Hd H)
    as [Hans [Hids _]].
  split; [exact Hans|exact Hids].
Defined.

(** X3: the table holds ids 1 and 2; the form delete of id 1 is answered
    with the redirect and id 2 alone is left. *)
Lemma delete_expense_removes_only_the_addressed_row_witness :
  In 1 (ids (table two_rows))
  /\ fst (delete_expense 1 two_rows) = Returns (RedirectResponse "/" 303)
  /\ ids (table (snd (delete_expense 1 two_rows))) = [2].
Proof.
  assert (H : In 1 (ids (table two_rows))) by (left; reflexivity).
  split; [exact H|].
  destruct (delete_expense_removes_only_the_addressed_row two_rows 1 H)
    as [Hans [_ Hids]].
  split; [exact Hans|exact Hids].
Defined.

(** X5: two populated rows are listed as two records, in order. *)
Lemma read_expenses_api_shows_every_row_witness :
  forallb populated (table two_rows) = true
  /\ exists l : list ExpenseRead,
       fst (read_expenses_api two_rows) = Returns (ExpenseRead_list_json l)
       /\ Forall2 shows (table two_rows) l.
Proof.
  split; [reflexivity|].
  destruct (read_expenses_api_shows_every_row
              0%float PrimFloat.add IEEE.truth IEEE.isnan two_rows eq_refl)
    as [l [Hans [Hshows _]]].
  exists l. split; [exact Hans|exact Hshows].
Defined.

(** X6: the second of two rows has no amount; the list fails with a
    500. *)
Lemma read_expenses_api_fails_on_a_null_field_witness :
  forallb populated
          (table (mkSession
                    [ mkExpense 1 (Some "Rent") (Some 900%float)
                                (Some today) eq_refl;
                      mkExpense 2 (Some "Books") None (Some today)
                                eq_refl ] []))
  = false
  /\ fst (read_expenses_api
            (mkSession
               [ mkExpense 1 (Some "Rent") (Some 900%float)
                           (Some today) eq_refl;
                 mkExpense 2 (Some "Books") None (Some today)
                           eq_refl ] []))
     = Raises 500 "Internal Server Error".
Proof.
  split; [reflexivity|].
  exact (proj1 (read_expenses_api_fails_on_a_null_field
                  0%float PrimFloat.add IEEE.truth IEEE.isnan
                  (mkSession
                     [ mkExpense 1 (Some "Rent") (Some 900%float)
                                 (Some today) eq_refl;
                       mkExpense 2 (Some "Books") None (Some today)
                                 eq_refl ] [])
                  eq_refl)).
Defined.

(** X8: a create on a table that holds id 1, then the delete of the
    returned id, leaves the one row. *)
Lemma create_then_delete_restores_the_table_witness :
  IEEE.isfinite 65%float = true
  /\ SQLite.stored 65%float = Some 65%float
  /\ assigned draws one_row = Some 2
  /\ exists r : ExpenseRead,
       fst (create_expense_api SQLite.stored draws
              (mkExpenseCreate "Train" 65%float today) one_row)
       = Returns (ExpenseRead_json r)
       /\ table (snd (delete_expense_api (read_id r)
                        (snd (create_expense_api SQLite.stored draws
                                (mkExpenseCreate "Train" 65%float today)
                                one_row))))
          = table one_row.
Proof.
  split; [reflexivity|]. split; [reflexivity|]. split; [reflexivity|].
  destruct (create_then_delete_restores_the_table
              IEEE.isfinite SQLite.stored draws one_row
              (mkExpenseCreate "Train" 65%float today) 65%float 2
              eq_refl eq_refl eq_refl)
    as [r [Hans [_ Htab]]].
  exists r. split; [exact Hans|exact Htab].
Defined.

(** X12: on 3 November 2026 a create dated in October leaves the total
    of the month at 900.0. *)
Lemma create_outside_the_month_keeps_the_total_witness :
  (forall xs : list PrimFloat.float,
      IEEE.truth (total_of 0%float PrimFloat.add xs) = false ->
      total_of 0%float PrimFloat.add xs = 0%float)
  /\ dated_in today (datetime.mkdate 2026 10 7) = false
  /\ total_in
       (fst (total_expenses_api 0%float PrimFloat.add IEEE.truth IEEE.isnan
               clock
               (snd (create_expense_api SQLite.stored draws
                       (mkExpenseCreate "Train" 65%float
                                        (datetime.mkdate 2026 10 7))
                       three_rows))))
     = Some 900%float.
Proof.
  split; [exact ieee_falsy_total|]. split; [reflexivity|].
  exact (create_outside_the_month_keeps_the_total
           0%float PrimFloat.add IEEE.truth IEEE.isnan SQLite.stored draws
           ieee_falsy_total three_rows
           (mkExpenseCreate "Train" 65%float (datetime.mkdate 2026 10 7))
           today eq_refl).
Defined.

(** X13: both rows are dated in November 2026; the total of the month and
    the total of the index page are both 1000.0. *)
Lemma total_of_the_month_is_the_total_when_all_rows_are_current_witness :
  forallb (same_month today)
          (table (mkSession
                    [ mkExpense 1 (Some "Rent") (Some 900%float)
                                (Some (datetime.mkdate 2026 11 1)) eq_refl;
                      mkExpense 2 (Some "Food") (Some 100%float)
                                (Some (datetime.mkdate 2026 11 2)) eq_refl ]
                    []))
  = true
  /\ total_in
       (fst (total_expenses_api 0%float PrimFloat.add IEEE.truth IEEE.isnan
               clock
               (mkSession
                  [ mkExpense 1 (Some "Rent") (Some 900%float)
                              (Some (datetime.mkdate 2026 11 1)) eq_refl;
                    mkExpense 2 (Some "Food") (Some 100%float)
                              (Some (datetime.mkdate 2026 11 2)) eq_refl ]
                  [])))
     = Some 1000%float.
Proof.
  split; [reflexivity|].
  exact (total_of_the_month_is_the_total_when_all_rows_are_current
           0%float PrimFloat.add IEEE.truth IEEE.isnan
           (mkSession
              [ mkExpense 1 (Some "Rent") (Some 900%float)
                          (Some (datetime.mkdate 2026 11 1)) eq_refl;
                mkExpense 2 (Some "Food") (Some 100%float)
                          (Some (datetime.mkdate 2026 11 2)) eq_refl ] [])
           today eq_refl).
Defined.

(** X14: on the table of ids 1 and 2, a create gives three rows, an
    update of id 7 leaves two and a delete of id 2 leaves one. *)
Lemma writes_and_the_number_of_rows_witness :
  NoDup (ids (table two_rows))
  /\ In 2 (ids (table two_rows))
  /\ List.length
       (table (snd (create_expense_api SQLite.stored draws
                      (mkExpenseCreate "Train" 65%float today) two_rows)))
     = 3%nat
  /\ List.length
       (table (snd (update_expense_api SQLite.stored 7
                      (mkExpenseCreate "Train" 65%float today) two_rows)))
     = 2%nat
  /\ S (List.length (table (snd (delete_expense_api 2 two_rows)))) = 2%nat.
Proof.
  assert (Hu : NoDup (ids (table two_rows))).
  { repeat constructor.
    - intros [H|[]]. discriminate H.
    - intros []. }
  assert (H : In 2 (ids (table two_rows))) by (right; left; reflexivity).
  split; [exact Hu|]. split; [exact H|].
  destruct (writes_and_the_number_of_rows SQLite.stored draws two_rows 7
              (mkExpenseCreate "Train" 65%float today))
    as [Hcreate [Hupdate _]].
  destruct (writes_and_the_number_of_rows SQLite.stored draws two_rows 2
              (mkExpenseCreate "Train" 65%float today))
    as [_ [_ Hdelete]].
  split; [exact Hcreate|]. split; [exact Hupdate|exact (Hdelete Hu H)].
Defined.

(** X16: the form for id 2 shows the second row of the table. *)
Lemma update_expense_form_shows_a_held_row_witness :
  In 2 (ids (table two_rows))
  /\ exists e : Expense,
       fst (update_expense_form 2 two_rows)
       = Returns (TemplateResponse "update_expense.html" (update_values e))
       /\ id e = 2.
Proof.
  assert (H : In 2 (ids (table two_rows))) by (right; left; reflexivity).
  split; [exact H|].
  destruct (update_expense_form_shows_a_held_row two_rows 2 H)
    as [e [Hans [_ [Hid _]]]].
  exists e. split; [exact Hans|exact Hid].
Defined.

(** X17: on the table of ids 1 and 2, the form update of id 2 is not
    answered 404, and the API delete of the id beyond the keys is not
    answered 404 either. *)
Lemma id_routes_answer_404_exactly_when_absent_witness :
  "Novels" <> ""
  /\ not_found
       (fst (app 0%float PrimFloat.add IEEE.truth IEEE.isnan SQLite.stored
                 draws clock (POST_update 2 "Novels" 40%float today)
                 two_rows))
     = false
  /\ not_found
       (fst (app 0%float PrimFloat.add IEEE.truth IEEE.isnan SQLite.stored
                 draws clock (DELETE_api_expenses beyond_top) two_rows))
     = false
  /\ not_found
       (fst (app 0%float PrimFloat.add IEEE.truth IEEE.isnan SQLite.stored
                 draws clock (DELETE_api_expenses 7) two_rows))
     = true.
Proof.
  assert (Hd : "Novels" <> "") by discriminate.
  split; [exact Hd|].
  destruct (id_routes_answer_404_exactly_when_absent
              0%float PrimFloat.add IEEE.truth IEEE.isnan SQLite.stored
              draws two_rows clock 2
              (mkExpenseCreate "Novels" 40%float today)
              "Novels" 40%float today Hd)
    as [_ [Hweb _]].
  destruct (id_routes_answer_404_exactly_when_absent
              0%float PrimFloat.add IEEE.truth IEEE.isnan SQLite.stored
              draws two_rows clock beyond_top
              (mkExpenseCreate "Novels" 40%float today)
              "Novels" 40%float today Hd)
    as [_ [_ [_ [_ Hbeyond]]]].
  destruct (id_routes_answer_404_exactly_when_absent
              0%float PrimFloat.add IEEE.truth IEEE.isnan SQLite.stored
              draws two_rows clock 7
              (mkExpenseCreate "Novels" 40%float today)
              "Novels" 40%float today Hd)
    as [_ [_ [_ [_ Habsent]]]].
  split; [exact Hweb|]. split; [exact Hbeyond|exact Habsent].
Defined.

(** X18: the update of id 7, which the table does not hold, is answered
    with an exception and the table is as it was. *)
Lemma a_failed_request_leaves_the_table_witness :
  amount_sent IEEE.isfinite SQLite.stored
    (PUT_api_expenses 7 (mkExpenseCreate "Train" 65%float today)) = true
  /\ succeeded
       (fst (app 0%float PrimFloat.add IEEE.truth IEEE.isnan SQLite.stored
                 draws clock
                 (PUT_api_expenses 7 (mkExpenseCreate "Train" 65%float today))
                 two_rows))
     = false
  /\ table (snd (app 0%float PrimFloat.add IEEE.truth IEEE.isnan
                     SQLite.stored draws clock
                     (PUT_api_expenses 7
                        (mkExpenseCreate "Train" 65%float today))
                     two_rows))
     = table two_rows.
Proof.
  split; [reflexivity|]. split; [reflexivity|].
  exact (a_failed_request_leaves_the_table
           0%float PrimFloat.add IEEE.truth IEEE.isnan IEEE.isfinite
           SQLite.stored draws two_rows clock
           (PUT_api_expenses 7 (mkExpenseCreate "Train" 65%float today))
           eq_refl eq_refl).
Defined.
